(** * AlphaVid converter: the conversion worker and the polling client

    A shallow embedding of the parts of the transparent-video converter
    that translate user settings into an ffmpeg invocation
    ([src/ffmpeg-worker.js]) and that track task status on the client
    ([frontend/src/App.tsx], [services/api.ts], [components/FileUpload.tsx],
    [types/index.ts]).

    Conventions of the embedding:
    - a JavaScript [number] is an exact rational ([Q]); the arithmetic the
      worker performs (one division by 100, [Math.min], [Math.max]) is read
      on exact values, and [NaN] and the infinities are left out;
    - a JavaScript string is a [string]; an optional property is an
      [option]; [a || b] is written out with the falsy values of the type
      of [a];
    - a thrown value is an [exn]; a computation that may throw returns a
      [result]; the engine ([ffmpeg.wasm]) and the HTTP back end are
      parameters of the functions that call them. *)

From Stdlib Require Import ZArith QArith Qminmax Qround Lia Lqa Ascii.
From stdpp Require Import base option list strings pretty gmap sorting.

Open Scope string_scope.
Open Scope list_scope.

(** ** Results and thrown values *)

(** A JavaScript value that has been thrown: [exn_message] is its
    [message] property when it has one, [exn_string] is [String(err)]. *)
Record exn := Exn { exn_message : option string; exn_string : string }.

Inductive result (A : Type) : Type :=
| Ok (a : A)
| Err (e : exn).
Arguments Ok {A} a.
Arguments Err {A} e.

Definition is_ok {A} (r : result A) : bool :=
  match r with Ok _ => true | Err _ => false end.

(** [new Error(msg)] *)
Definition new_Error (msg : string) : exn :=
  Exn (Some msg) ("Error: " +:+ msg).

(** ** JavaScript primitives used by the worker *)

Module JS.

(** Truthiness of an optional string: [undefined] and [''] are falsy. *)
Definition truthy_string (s : option string) : bool :=
  match s with
  | Some s => negb (String.eqb s "")
  | None => false
  end.

(** [s || d] on an optional string. *)
Definition or_string (s : option string) (d : string) : string :=
  match s with
  | Some v => if String.eqb v "" then d else v
  | None => d
  end.

(** [x || d] on an optional number: [undefined] and [0] are falsy. *)
Definition or_number (x : option Q) (d : Q) : Q :=
  match x with
  | Some v => if Qeq_bool v 0 then d else v
  | None => d
  end.

(** [Math.min], [Math.max] on two arguments. *)
Definition Math_min (a b : Q) : Q := Qmin a b.
Definition Math_max (a b : Q) : Q := Qmax a b.

(** The digit characters of [Number.prototype.toString(radix)]:
    ['0'..'9'] then ['a'..'z']. *)
Definition digit_char (d : Z) : ascii :=
  if (d <? 10)%Z then ascii_of_nat (48 + Z.to_nat d)
  else ascii_of_nat (87 + Z.to_nat d).

(** Digits of a non-negative integer, most significant first. *)
Fixpoint int_digits (fuel : nat) (radix n : Z) (acc : string) : string :=
  match fuel with
  | O => acc
  | S k =>
      let acc' := String (digit_char (n mod radix)) acc in
      if (n / radix =? 0)%Z then acc'
      else int_digits k radix (n / radix) acc'
  end.

(** [n.toString(radix)] for an integer [n >= 0]. *)
Definition int_toString (radix n : Z) : string :=
  int_digits (S (Z.to_nat (Z.log2 n))) radix n "".

(** Fractional digits of [num/den] (with [0 <= num < den]), stopping when
    the expansion ends. *)
Fixpoint frac_digits (fuel : nat) (num den : Z) : string :=
  match fuel with
  | O => ""
  | S k =>
      if (num =? 0)%Z then ""
      else String (digit_char (10 * num / den))
                  (frac_digits k (10 * num mod den) den)
  end.

(** [String(x)] / [`${x}`] for a number: the decimal expansion of the
    value, with at most 16 fractional digits.  On a value with a short
    terminating expansion (the hundredths [k/100] the worker produces
    from an integer tolerance are of this kind) this is the shortest
    decimal that JavaScript prints; the exponent notation JavaScript
    uses below 1e-6 and from 1e21 on is not reproduced. *)
Definition Number_toString (x : Q) : string :=
  let n := Qnum x in
  let d := Zpos (Qden x) in
  let a := Z.abs n in
  let ip := int_toString 10 (a / d) in
  let fp := frac_digits 16 (a mod d) d in
  let body := if String.eqb fp "" then ip else ip +:+ "." +:+ fp in
  if (n <? 0)%Z then "-" +:+ body else body.

(** [s.padStart(2, '0')] *)
Definition padStart2 (s : string) : string :=
  match s with
  | "" => "00"
  | String c "" => String "0" (String c "")
  | _ => s
  end.

(** Value of a hexadecimal digit, as [parseInt(_, 16)] reads it. *)
Definition hex_value (c : ascii) : option Z :=
  let n := Z.of_nat (nat_of_ascii c) in
  if ((48 <=? n) && (n <=? 57))%Z then Some (n - 48)%Z
  else if ((97 <=? n) && (n <=? 102))%Z then Some (n - 87)%Z
  else if ((65 <=? n) && (n <=? 70))%Z then Some (n - 55)%Z
  else None.

(** The character class [[a-f\d]] under the [i] flag. *)
Definition is_hex (c : ascii) : bool :=
  match hex_value c with Some _ => true | None => false end.

(** [parseInt(String [a; b], 16)] for two hexadecimal digits. *)
Definition parseInt16 (a b : ascii) : Z :=
  match hex_value a, hex_value b with
  | Some x, Some y => 16 * x + y
  | _, _ => 0
  end.

End JS.

(** ** The conversion worker ([src/ffmpeg-worker.js]) *)

Module Worker.

Definition bytes := list Byte.byte.

(** The [settings] object of a [convert] message: the fields of
    [ConvertOptions] ([types/index.ts]), each of them optional. *)
Record Settings := {
  color : option string;
  tolerance : option Q;
  feather : option Q;
  applyToAll : option bool;
  edgeEnhancement : option bool;
  edgeThresholdLow : option Q;
  edgeThresholdHigh : option Q;
  morphologyIterations : option Q;
  removeWatermark : option bool;
  wmX : option Q;
  wmY : option Q;
  wmW : option Q;
  wmH : option Q
}.

(** The empty object [{}] that replaces a missing [settings]. *)
Definition no_settings : Settings :=
  Build_Settings None None None None None None None None None None None
                 None None.

Record Rgb := { r : Z; g : Z; b : Z }.

(** The optional leading [#] of the colour pattern. *)
Definition strip_hash (s : string) : string :=
  match s with
  | String "#"%char rest => rest
  | _ => s
  end.

(** [/^#?([a-f\d]{2})([a-f\d]{2})([a-f\d]{2})$/i.exec(hex)]: the three
    captured groups, or [None] for [null]. *)
Definition hex_exec (hex : string)
  : option ((ascii * ascii) * (ascii * ascii) * (ascii * ascii)) :=
  match strip_hash hex with
  | String c1 (String c2 (String c3 (String c4 (String c5 (String c6 ""))))) =>
      if forallb JS.is_hex [c1; c2; c3; c4; c5; c6]
      then Some ((c1, c2), (c3, c4), (c5, c6))
      else None
  | _ => None
  end.

Definition hexToRgbObj (hex : string) : Rgb :=
  match hex_exec hex with
  | Some ((r1, r2), (g1, g2), (b1, b2)) =>
      {| r := JS.parseInt16 r1 r2;
         g := JS.parseInt16 g1 g2;
         b := JS.parseInt16 b1 b2 |}
  | None => {| r := 0; g := 0; b := 0 |}
  end.

(** The three values [runFFmpegColorKey] derives from the settings. *)
Definition rgb_of (s : Settings) : Rgb :=
  hexToRgbObj (JS.or_string (color s) "#000000").

Definition tol_of (s : Settings) : Q :=
  JS.Math_min 1 (JS.Math_max 0 (JS.or_number (tolerance s) 50 / 100)).

Definition feather_of (s : Settings) : Q :=
  JS.Math_max 0 (JS.or_number (feather s) 0).

Definition hex2 (n : Z) : string := JS.padStart2 (JS.int_toString 16 n).

Definition targetColor (rgb : Rgb) : string :=
  "0x" +:+ hex2 (r rgb) +:+ hex2 (g rgb) +:+ hex2 (b rgb).

(** The value of the [-vf] argument. *)
Definition vf (s : Settings) : string :=
  "colorkey=" +:+ targetColor (rgb_of s) +:+ ":"
    +:+ JS.Number_toString (tol_of s) +:+ ":0.1".

(** The array [args] handed to [ff.run]. *)
Definition args (fileName : string) (s : Settings) : list string :=
  [ "-i"; fileName;
    "-vf"; vf s;
    "-c:v"; "libvpx-vp9";
    "-b:v"; "1.8M";
    "-pix_fmt"; "yuva420p";
    "-an";
    "out.webm" ].

(** *** Reading a filter chain

    ffmpeg separates the stages of a linear chain by [,]; a stage is
    [name=arguments] and the arguments of [colorkey] are separated by
    [:] (colour, similarity, blend). *)

Fixpoint split_on (sep : ascii) (s : string) : list string :=
  match s with
  | "" => [""]
  | String c rest =>
      if Ascii.eqb c sep then "" :: split_on sep rest
      else match split_on sep rest with
           | w :: ws => String c w :: ws
           | [] => [String c ""]
           end
  end.

Record Stage := { stage_name : string; stage_args : list string }.

Definition parse_stage (s : string) : Stage :=
  match split_on "="%char s with
  | [n] => {| stage_name := n; stage_args := [] |}
  | n :: a :: _ => {| stage_name := n; stage_args := split_on ":"%char a |}
  | [] => {| stage_name := ""; stage_args := [] |}
  end.

Definition stages (chain : string) : list Stage :=
  map parse_stage (split_on ","%char chain).

(** The chroma-key stage is ffmpeg's [colorkey]; the watermark mask of
    the documented command line is ffmpeg's [delogo]. *)
Definition is_chroma_key (st : Stage) : bool :=
  String.eqb (stage_name st) "colorkey".
Definition is_watermark_mask (st : Stage) : bool :=
  String.eqb (stage_name st) "delogo".

(** *** The engine and the worker's state

    [ffmpeg.wasm] is outside the repository: every call into it is a
    field of [Engine], and each of them may throw.  [FS] is the state of
    the in-memory file system of one ffmpeg instance. *)

Record Engine (FS : Type) := {
  importScripts : result unit;
  umd_available : bool;
  createFFmpeg : FS;
  ff_load : result unit;
  FS_writeFile : FS -> string -> bytes -> FS * result unit;
  ff_run : FS -> list string -> FS * result unit;
  FS_readFile : FS -> string -> result bytes;
  crossOriginIsolated : bool
}.
Arguments importScripts {FS}.
Arguments umd_available {FS}.
Arguments createFFmpeg {FS}.
Arguments ff_load {FS}.
Arguments FS_writeFile {FS}.
Arguments ff_run {FS}.
Arguments FS_readFile {FS}.
Arguments crossOriginIsolated {FS}.

(** Messages the worker posts to the page. *)
Inductive OutMsg :=
| ProbeOk (coi : bool)
| ConvertOk (buffer : bytes)
| ErrorMsg (message : string).

(** The closure variables [ffmpeg] and [ffReady], with two observation
    logs: the messages posted so far and the argument arrays [ff.run]
    was called with. *)
Record State (FS : Type) := {
  ffmpeg : option FS;
  ffReady : bool;
  outbox : list OutMsg;
  ran : list (list string)
}.
Arguments ffmpeg {FS}.
Arguments ffReady {FS}.
Arguments outbox {FS}.
Arguments ran {FS}.
Arguments Build_State {FS}.

Definition init {FS} : State FS := Build_State None false [] [].

(** Payload of a [convert] message and the [data] of a message event. *)
Record Payload := {
  fileBuffer : option bytes;
  fileName : option string;
  settings : option Settings
}.

Record Data := { type : option string; payload : option Payload }.

(** [TypeError]s raised by the language itself. *)
Definition TypeError (msg : string) : exn :=
  Exn (Some msg) ("TypeError: " +:+ msg).
Definition TypeError_undefined : exn :=
  TypeError "Cannot read properties of undefined".
Definition TypeError_destructure : exn :=
  TypeError "Cannot destructure 'payload' as it is undefined.".

Section WithEngine.
Context {FS : Type} (eng : Engine FS).

(** Worker code runs in a state-and-exception monad. *)
Definition M (A : Type) : Type := State FS -> State FS * result A.

#[local] Instance M_ret : MRet M := fun A a st => (st, Ok a).
#[local] Instance M_bind : MBind M := fun A B f m st =>
  match m st with
  | (st', Ok a) => f a st'
  | (st', Err e) => (st', Err e)
  end.

Definition throw {A} (e : exn) : M A := fun st => (st, Err e).

(** [try { body } catch (err) { handler(err) }] *)
Definition try_catch {A} (body : M A) (handler : exn -> M A) : M A :=
  fun st =>
    match body st with
    | (st', Ok a) => (st', Ok a)
    | (st', Err e) => handler e st'
    end.

Definition lift {A} (x : result A) : M A := fun st => (st, x).

Definition set_ffmpeg (fs : FS) : M unit := fun st =>
  (Build_State (Some fs) (ffReady st) (outbox st) (ran st), Ok tt).
Definition set_ffReady (v : bool) : M unit := fun st =>
  (Build_State (ffmpeg st) v (outbox st) (ran st), Ok tt).
Definition get_ffReady : M bool := fun st => (st, Ok (ffReady st)).

(** [self.postMessage(m)]; the messages of the worker can all be cloned,
    and posting one does not throw. *)
Definition postMessage (m : OutMsg) : M unit := fun st =>
  (Build_State (ffmpeg st) (ffReady st) (outbox st ++ [m]) (ran st), Ok tt).

(** A method call on the instance [ff]; calling a method of
    [undefined] throws. *)
Definition on_ff {A} (op : FS -> FS * result A) : M A := fun st =>
  match ffmpeg st with
  | None => (st, Err TypeError_undefined)
  | Some fs =>
      let '(fs', x) := op fs in
      (Build_State (Some fs') (ffReady st) (outbox st) (ran st), x)
  end.

Definition log_run (a : list string) : M unit := fun st =>
  (Build_State (ffmpeg st) (ffReady st) (outbox st) (ran st ++ [a]), Ok tt).

Definition ensureFFmpeg : M unit :=
  ready ← get_ffReady;
  if ready : bool then mret tt
  else
    lift (importScripts eng);;
    (if umd_available eng then mret tt
     else throw (new_Error "FFmpeg UMD not available"));;
    set_ffmpeg (createFFmpeg eng);;
    lift (ff_load eng);;
    set_ffReady true.

Definition runFFmpegColorKey (inputU8 : bytes) (fileName : string)
    (s : Settings) : M bytes :=
  ensureFFmpeg;;
  on_ff (fun fs => FS_writeFile eng fs fileName inputU8);;
  let a := args fileName s in
  log_run a;;
  on_ff (fun fs => ff_run eng fs a);;
  on_ff (fun fs => (fs, FS_readFile eng fs "out.webm")).

(** [err && err.message ? err.message : String(err)] *)
Definition error_message (err : exn) : string :=
  if JS.truthy_string (exn_message err)
  then default "" (exn_message err)
  else exn_string err.

(** The body of the [try] block of [self.onmessage]. *)
Definition handle (ty : option string) (pl : option Payload) : M unit :=
  if decide (ty = Some "probe") then
    ensureFFmpeg;;
    postMessage (ProbeOk (crossOriginIsolated eng))
  else if decide (ty = Some "convert") then
    p ← (match pl with
         | Some p => mret p
         | None => throw TypeError_destructure
         end);
    let inputU8 := default [] (fileBuffer p) in
    outU8 ← runFFmpegColorKey inputU8
              (JS.or_string (fileName p) "input.mp4")
              (default no_settings (settings p));
    postMessage (ConvertOk outU8)
  else mret tt.

Definition onmessage (data : option Data) : M unit :=
  let ty := data ≫= type in
  let pl := data ≫= payload in
  try_catch (handle ty pl)
            (fun err => postMessage (ErrorMsg (error_message err))).

End WithEngine.

End Worker.


(** ** The polling client ([frontend/src/App.tsx]) *)

Module Client.

(** [types/index.ts] *)
Inductive TaskStatus := PENDING | RUNNING | SUCCESS | FAILED.

#[global] Instance TaskStatus_eq_dec : EqDecision TaskStatus.
Proof. solve_decision. Defined.

Record FileInfo := {
  fileId : string;
  name : string;
  size : Q;
  duration : Q
}.

Module TaskInfo.
Record t := {
  taskId : string;
  status : TaskStatus;
  progress : option Q;
  resultUrl : option string;
  errorCode : option string;
  errorMessage : option string
}.
End TaskInfo.

Record FileProcessingState := {
  file : FileInfo;
  taskId : option string;
  status : TaskStatus;
  progress : Q;
  resultUrl : option string;
  error : option string
}.

(** [a || b] on two optional strings. *)
Definition or_else (a b : option string) : option string :=
  if JS.truthy_string a then a else b.

(** [Promise.all]: the results in order, or the first rejection. *)
Fixpoint Promise_all {A} (ps : list (result A)) : result (list A) :=
  match ps with
  | [] => Ok []
  | Err e :: _ => Err e
  | Ok a :: rest =>
      match Promise_all rest with
      | Ok l => Ok (a :: l)
      | Err e => Err e
      end
  end.

(** [handleFilesSelected], once [uploadFiles] has answered. *)
Definition handleFilesSelected (uploadedFiles : list FileInfo)
  : list FileProcessingState :=
  map (fun file =>
         {| file := file; taskId := None; status := PENDING; progress := 0;
            resultUrl := None; error := None |})
      uploadedFiles.

(** The state update of [handleStartConvert] (lines 130-137). *)
Definition start_update (taskIds : list string)
    (prevFiles : list FileProcessingState) : list FileProcessingState :=
  imap (fun index file =>
          {| file := Client.file file;
             taskId := taskIds !! index;
             status := RUNNING;
             progress := 0;
             resultUrl := resultUrl file;
             error := error file |})
       prevFiles.

(** Notifications shown through antd's [message]. *)
Inductive Toast :=
| Warning (text : string)
| Success (text : string)
| Error (text : string).

Section WithBackend.
(** The two requests of [services/api.ts] the component issues; the
    server behind them is not part of the client. *)
Context {Options : Type}.
Context (convertFiles : list string -> Options -> result (list string)).
Context (getTaskStatus : string -> result TaskInfo.t).

Definition handleStartConvert (convertOptions : Options)
    (files : list FileProcessingState)
  : list FileProcessingState * Toast :=
  let fileIds := map (fun f => fileId (file f)) files in
  if decide (length fileIds = 0) then (files, Warning "请先上传视频文件")
  else
    match convertFiles fileIds convertOptions with
    | Ok taskIds => (start_update taskIds files, Success "转换任务已启动")
    | Err e =>
        (files,
         Error (JS.or_string (exn_message e) "启动转换失败"))
    end.

(** The filter of line 58. *)
Definition is_active (f : FileProcessingState) : bool :=
  JS.truthy_string (taskId f)
  && (bool_decide (status f = RUNNING) || bool_decide (status f = PENDING)).

Definition activeTasks (files : list FileProcessingState)
  : list FileProcessingState :=
  filter (fun f => is_active f = true) files.

(** The task ids one poll asks about, in order. *)
Definition polled_ids (files : list FileProcessingState) : list string :=
  map (fun f => default "" (taskId f)) (activeTasks files).

(** Lines 63-64: one status request per active task, awaited together. *)
Definition statusResults (files : list FileProcessingState)
  : result (list TaskInfo.t) :=
  Promise_all (map getTaskStatus (polled_ids files)).

(** The per-file function of the state update (lines 67-79). *)
Definition poll_update (results : list TaskInfo.t)
    (file : FileProcessingState) : FileProcessingState :=
  match List.find
          (fun s => bool_decide (Some (TaskInfo.taskId s) = taskId file))
          results with
  | Some statusResult =>
      {| file := Client.file file;
         taskId := taskId file;
         status := TaskInfo.status statusResult;
         progress :=
           JS.or_number (TaskInfo.progress statusResult) (progress file);
         resultUrl := or_else (TaskInfo.resultUrl statusResult)
                              (resultUrl file);
         error := or_else (TaskInfo.errorMessage statusResult) (error file) |}
  | None => file
  end.

(** [pollTaskStatus]: the new value of [files].  A failed poll is logged
    to the console and changes nothing.  The poll is one step: the files
    the requests are built from are the files the update is applied
    to. *)
Definition pollTaskStatus (files : list FileProcessingState)
  : list FileProcessingState :=
  if decide (length (activeTasks files) = 0) then files
  else
    match statusResults files with
    | Ok results => map (poll_update results) files
    | Err _ => files
    end.

End WithBackend.

(** [canStartConvert], with [converting] the flag of the same name. *)
Definition canStartConvert (converting : bool)
    (files : list FileProcessingState) : bool :=
  bool_decide (0 < length files) && negb converting
  && negb (existsb (fun f => bool_decide (status f = RUNNING)) files).

(** [beforeUpload] of [components/FileUpload.tsx]: its return value
    (always [false], which stops antd's own upload) and the message it
    shows.  [validType] and [validSize] are the answers of
    [validateFileType] and [validateFileSize] for the file. *)
Definition beforeUpload (fileName : string) (validType validSize : bool)
    (fileListLength filesLength maxFiles maxSizeMB : nat)
  : bool * option Toast :=
  if negb validType then
    (false, Some (Error (fileName +:+ " 不是支持的视频格式")))
  else if negb validSize then
    (false, Some (Error (fileName +:+ " 文件大小超过 " +:+ pretty maxSizeMB
                           +:+ "MB 限制")))
  else
    let totalFiles := (fileListLength + filesLength)%nat in
    if decide (maxFiles < totalFiles)%nat then
      (false, Some (Error ("最多只能上传 " +:+ pretty maxFiles +:+ " 个文件")))
    else (false, None).

(** *** Observed status sequences *)

(** The client states after polls that are each answered before the
    next one is made, the [i]-th poll being answered by [apis !! i]. *)
Fixpoint poll_states (apis : list (string -> result TaskInfo.t))
    (files : list FileProcessingState) : list (list FileProcessingState) :=
  match apis with
  | [] => []
  | api :: rest =>
      let files' := pollTaskStatus api files in
      files' :: poll_states rest files'
  end.

(** The timer of lines 36-55 does not wait for a poll to finish: it
    calls [pollTaskStatus] again while the requests of an earlier call
    are unanswered, and each call applies its answers to the files of
    the moment the answers arrive ([setFiles(prevFiles => ...)]).

    The component between two events: the value of [files], and the
    calls of [pollTaskStatus] that wait at [await Promise.all], oldest
    first, each with the task ids it asked about. *)
Record App := {
  app_files : list FileProcessingState;
  in_flight : list (list string)
}.

Inductive Event :=
| Tick
| Answered (k : nat) (getTaskStatus : string -> result TaskInfo.t).

(** The timer fires: lines 58-64, up to the [await]. *)
Definition on_tick (app : App) : App :=
  if decide (length (activeTasks (app_files app)) = 0) then app
  else {| app_files := app_files app;
          in_flight := in_flight app ++ [polled_ids (app_files app)] |}.

(** The requests of the [k]-th waiting call are answered by
    [getTaskStatus]: lines 64-82, from the [await] on. *)
Definition on_answered (k : nat)
    (getTaskStatus : string -> result TaskInfo.t) (app : App) : App :=
  match in_flight app !! k with
  | None => app
  | Some ids =>
      {| app_files :=
           match Promise_all (map getTaskStatus ids) with
           | Ok results => map (poll_update results) (app_files app)
           | Err _ => app_files app
           end;
         in_flight := delete k (in_flight app) |}
  end.

Definition step (app : App) (e : Event) : App :=
  match e with
  | Tick => on_tick app
  | Answered k getTaskStatus => on_answered k getTaskStatus app
  end.

Fixpoint run (events : list Event) (app : App) : list App :=
  match events with
  | [] => []
  | e :: rest => let app' := step app e in app' :: run rest app'
  end.

(** The values of [files] over one session: after the upload, after
    [handleStartConvert] received [taskIds], and after each event. *)
Definition session (uploadedFiles : list FileInfo) (taskIds : list string)
    (events : list Event) : list (list FileProcessingState) :=
  let u := handleFilesSelected uploadedFiles in
  let s := start_update taskIds u in
  u :: s :: map app_files (run events {| app_files := s; in_flight := [] |}).

(** The status of the [i]-th file in each state. *)
Definition status_history (i : nat)
    (states : list (list FileProcessingState)) : list TaskStatus :=
  omap (fun files => status <$> files !! i) states.

(** The distinct values of a sequence, repeats of the current value
    dropped. *)
Fixpoint observed (l : list TaskStatus) : list TaskStatus :=
  match l with
  | [] => []
  | a :: rest =>
      match rest with
      | b :: _ => if decide (a = b) then observed rest else a :: observed rest
      | [] => [a]
      end
  end.

(** "A prefix of PENDING, RUNNING, then SUCCESS or FAILED". *)
Definition lifecycle_prefix (l : list TaskStatus) : Prop :=
  observed l `prefix_of` [PENDING; RUNNING; SUCCESS]
  \/ observed l `prefix_of` [PENDING; RUNNING; FAILED].

(** A server answer that names the task it was asked about and does not
    report it as still queued. *)
Definition echoes_running (api : string -> result TaskInfo.t) : Prop :=
  forall t s, api t = Ok s ->
    TaskInfo.taskId s = t /\ TaskInfo.status s <> PENDING.

(** Every answer of a run is of that kind. *)
Definition answers_echo (events : list Event) : Prop :=
  Forall (fun e => match e with
                   | Tick => True
                   | Answered _ getTaskStatus => echoes_running getTaskStatus
                   end) events.

(** No poll asks anything while an earlier one is unanswered. *)
Fixpoint one_at_a_time (events : list Event) (app : App) : Prop :=
  match events with
  | [] => True
  | e :: rest =>
      match e with
      | Tick => in_flight app = [] \/ activeTasks (app_files app) = []
      | Answered _ _ => True
      end
      /\ one_at_a_time rest (step app e)
  end.

End Client.

(** ** The back end's [convert] operation *)

Module Backend.
Import Client.

(** Error codes surfaced to callers. *)
Inductive ErrorCode :=
| LIMIT_EXCEEDED_SIZE
| LIMIT_EXCEEDED_COUNT
| LIMIT_EXCEEDED_DURATION
| UNSUPPORTED_FORMAT
| ENGINE_FAILED
| STORAGE_ERROR
| TIMEOUT
| NOT_FOUND.

#[global] Instance ErrorCode_eq_dec : EqDecision ErrorCode.
Proof. solve_decision. Defined.

Record Task := {
  task_file : string;
  task_status : TaskStatus;
  task_progress : Q;
  task_result : option string;
  task_error : option (ErrorCode * string)
}.

(** The accepted uploads, the Task Store and the Task Queue. *)
Record Store := {
  uploads : gset string;
  tasks : gmap string Task;
  queue : list string
}.

(** Validation limit: at most 10 files in a batch. *)
Definition MAX_BATCH : nat := 10.

Section Convert.
Context {Options : Type}.
(** Task identifiers are opaque: [new_task_id] is the store's choice of
    an identifier for a file. *)
Context (new_task_id : gmap string Task -> string -> string).

(** Modelled from the spec: the Task Store's [create] and the queue's
    [enqueue] (neither is among the sources).  An accepted convert
    request creates one task per file, in [PENDING], and hands it to the
    queue. *)
Definition create (st : Store) (fileId : string) : Store * string :=
  let id := new_task_id (tasks st) fileId in
  ({| uploads := uploads st;
      tasks := <[id := {| task_file := fileId; task_status := PENDING;
                          task_progress := 0; task_result := None;
                          task_error := None |}]> (tasks st);
      queue := queue st ++ [id] |}, id).

(** Modelled from the spec: [create] for each file of the request, in
    order. *)
Fixpoint create_all (st : Store) (fileIds : list string)
  : Store * list string :=
  match fileIds with
  | [] => (st, [])
  | f :: rest =>
      let '(st1, id) := create st f in
      let '(st2, ids) := create_all st1 rest in
      (st2, id :: ids)
  end.

(** Modelled from the spec: the server side of [POST /api/convert] (the
    Python back end is not among the sources).  Section 6:
    "convert(fileIds, options) -> {taskIds}. Fails with
    LIMIT_EXCEEDED_COUNT if fileIds exceeds 10; each id must reference a
    previously accepted UploadedFile"; section 7: validation errors are
    "rejected synchronously, before a Task is created"; an unknown
    identifier is a not-found error. *)
Definition convert (st : Store) (fileIds : list string) (options : Options)
  : Store * (ErrorCode + list string) :=
  if decide (MAX_BATCH < length fileIds) then (st, inl LIMIT_EXCEEDED_COUNT)
  else if decide (Forall (fun f => f ∈ uploads st) fileIds) then
    let '(st', ids) := create_all st fileIds in (st', inr ids)
  else (st, inl NOT_FOUND).

(** [convertFiles] of [services/api.ts] against this server: an error
    response is rethrown as [new Error(message)], [error_text] being the
    message the server attaches to a code. *)
Definition convertFiles (error_text : ErrorCode -> string) (st : Store)
    (fileIds : list string) (options : Options) : result (list string) :=
  match snd (convert st fileIds options) with
  | inr ids => Ok ids
  | inl code => Err (new_Error (error_text code))
  end.

End Convert.

End Backend.

(** ** Vocabulary of the properties *)

Import Worker.

Fixpoint all_chars (P : ascii -> bool) (s : string) : bool :=
  match s with
  | "" => true
  | String c rest => P c && all_chars P rest
  end.

(** A character that separates nothing in a filter chain. *)
Definition plain (c : ascii) : bool :=
  negb (Ascii.eqb c ",") && negb (Ascii.eqb c "=") && negb (Ascii.eqb c ":").

(** "Exactly six hexadecimal digits", and a colour written as an optional
    [#] followed by them. *)
Definition six_hex_digits (ds : string) : Prop :=
  String.length ds = 6%nat /\ all_chars JS.is_hex ds = true.

Definition is_color_literal (c : string) : Prop :=
  six_hex_digits c \/ exists ds, c = String "#" ds /\ six_hex_digits ds.

(** The colour token of a filter chain: [0x] and six hexadecimal digits. *)
Definition is_color_token (t : string) : Prop :=
  exists ds, t = "0x" +:+ ds /\ six_hex_digits ds.

(** The [n]-th argument of the chroma-key stage of a chain: the colour
    is argument 0, the similarity argument 1 and the blend argument 2. *)
Definition chroma_key_arg (n : nat) (chain : string) : option string :=
  match List.find is_chroma_key (stages chain) with
  | Some st => stage_args st !! n
  | None => None
  end.

Definition black : Rgb := {| r := 0; g := 0; b := 0 |}.

(** "The chain contains a watermark-masking stage, and that stage occurs
    strictly before every chroma-key stage". *)
Definition mask_before_every_chroma (chain : list Stage) : Prop :=
  exists i m, chain !! i = Some m /\ is_watermark_mask m = true /\
    forall j k, chain !! j = Some k -> is_chroma_key k = true -> (i < j)%nat.

(** The argument arrays one call of [runFFmpegColorKey] passes to
    [ff.run]. *)
Definition invoked {FS} (eng : Engine FS) (inputU8 : bytes)
    (fileName : string) (s : Settings) (st : State FS) : list (list string) :=
  drop (length (ran st))
       (ran (fst (runFFmpegColorKey eng inputU8 fileName s st))).

(** The messages one call of the message handler posts. *)
Definition replies {FS} (eng : Engine FS) (data : option Data)
    (st : State FS) : list OutMsg :=
  drop (length (outbox st)) (outbox (fst (onmessage eng data st))).

(** ** Sample inputs *)

(** The options of the documented example: tolerance 10, feather 0.5,
    watermark removal on with the default region. *)
Definition sample_settings : Settings :=
  {| color := Some "#000000"; tolerance := Some 10%Q; feather := Some (1 # 2);
     applyToAll := Some true; edgeEnhancement := None;
     edgeThresholdLow := None; edgeThresholdHigh := None;
     morphologyIterations := None; removeWatermark := Some true;
     wmX := Some (12 # 10); wmY := Some (12 # 10);
     wmW := Some 14%Q; wmH := Some (55 # 10) |}.

Definition with_tolerance (t : Q) : Settings :=
  {| color := None; tolerance := Some t; feather := None;
     applyToAll := None; edgeEnhancement := None;
     edgeThresholdLow := None; edgeThresholdHigh := None;
     morphologyIterations := None; removeWatermark := None;
     wmX := None; wmY := None; wmW := None; wmH := None |}.

Definition with_feather (f : Q) : Settings :=
  {| color := None; tolerance := Some 10%Q; feather := Some f;
     applyToAll := None; edgeEnhancement := None;
     edgeThresholdLow := None; edgeThresholdHigh := None;
     morphologyIterations := None; removeWatermark := None;
     wmX := None; wmY := None; wmW := None; wmH := None |}.

Definition with_color (c : string) : Settings :=
  {| color := Some c; tolerance := None; feather := None;
     applyToAll := None; edgeEnhancement := None;
     edgeThresholdLow := None; edgeThresholdHigh := None;
     morphologyIterations := None; removeWatermark := None;
     wmX := None; wmY := None; wmW := None; wmH := None |}.

(** An engine on which every call succeeds: files are kept in an
    association list and a run leaves a one-byte [out.webm]. *)
Definition sample_engine : Engine (list (string * bytes)) :=
  {| importScripts := Ok tt;
     umd_available := true;
     createFFmpeg := [];
     ff_load := Ok tt;
     FS_writeFile := fun fs n d => ((n, d) :: fs, Ok tt);
     ff_run := fun fs _ => (("out.webm", [Byte.x1a]) :: fs, Ok tt);
     FS_readFile := fun fs n =>
       match List.find (fun e => String.eqb (fst e) n) fs with
       | Some e => Ok (snd e)
       | None => Err (new_Error "ENOENT")
       end;
     crossOriginIsolated := false |}.

(** An engine whose script cannot be fetched. *)
Definition offline_engine : Engine unit :=
  {| importScripts := Err (new_Error "NetworkError");
     umd_available := false;
     createFFmpeg := tt;
     ff_load := Ok tt;
     FS_writeFile := fun fs _ _ => (fs, Ok tt);
     ff_run := fun fs _ => (fs, Ok tt);
     FS_readFile := fun _ _ => Ok [];
     crossOriginIsolated := false |}.

Definition convert_message (s : Settings) : option Data :=
  Some {| type := Some "convert";
          payload := Some {| fileBuffer := Some [Byte.x00];
                             fileName := Some "a.mp4";
                             settings := Some s |} |}.

Definition probe_message : option Data :=
  Some {| type := Some "probe"; payload := None |}.

(** The worker after it has served one conversion. *)
Definition warm_state : State (list (string * bytes)) :=
  fst (onmessage sample_engine (convert_message (with_tolerance 30)) init).

(** *** Client and server samples *)

Import Client.

(** One step of the lifecycle: stay, or move to the next state. *)
Definition step_ok (a b : TaskStatus) : bool :=
  match a, b with
  | PENDING, PENDING | PENDING, RUNNING => true
  | RUNNING, RUNNING | RUNNING, SUCCESS | RUNNING, FAILED => true
  | SUCCESS, SUCCESS | FAILED, FAILED => true
  | _, _ => false
  end.

Fixpoint chain_ok (a : TaskStatus) (l : list TaskStatus) : bool :=
  match l with
  | [] => true
  | b :: rest => step_ok a b && chain_ok b rest
  end.

(** Invariant of the client state after a convert start: no file is
    back in [PENDING], and files that share a task id share a status. *)
Definition coherent (files : list FileProcessingState) : Prop :=
  (forall f, f ∈ files -> status f <> PENDING)
  /\ (forall f g, f ∈ files -> g ∈ files ->
        taskId f = taskId g -> is_Some (taskId f) -> status f = status g).

(** The component right after a convert start. *)
Definition started (uploadedFiles : list FileInfo) (taskIds : list string)
  : App :=
  {| app_files := start_update taskIds (handleFilesSelected uploadedFiles);
     in_flight := [] |}.

(** Invariant of the component while no two polls overlap: at most one
    poll waits for its answers, and it asked about the files as they
    are. *)
Definition in_step (app : App) : Prop :=
  coherent (app_files app)
  /\ (in_flight app = []
      \/ (in_flight app = [polled_ids (app_files app)]
          /\ length (activeTasks (app_files app)) <> 0%nat)).

Definition file_a : FileInfo :=
  {| fileId := "f_123"; name := "a.mp4"; size := 10485760; duration := 98 # 10 |}.
Definition file_b : FileInfo :=
  {| fileId := "f_124"; name := "b.mov"; size := 20480000; duration := 123 # 10 |}.
Definition file_c : FileInfo :=
  {| fileId := "f_125"; name := "c.webm"; size := 1000; duration := 1 |}.

Definition report (t : string) (st : TaskStatus) : TaskInfo.t :=
  {| TaskInfo.taskId := t; TaskInfo.status := st; TaskInfo.progress := None;
     TaskInfo.resultUrl := None; TaskInfo.errorCode := None;
     TaskInfo.errorMessage := None |}.

(** A server that reports every task in the given status. *)
Definition api_reporting (st : TaskStatus) (t : string)
  : result TaskInfo.t := Ok (report t st).

(** A server that knows [t_501] and [t_502] only. *)
Definition api_two_known (t : string) : result TaskInfo.t :=
  if decide (t = "t_501" \/ t = "t_502") then Ok (report t SUCCESS)
  else Err (new_Error "NOT_FOUND").

(** Three files whose conversion has been started. *)
Definition three_running : list FileProcessingState :=
  start_update ["t_501"; "t_502"; "t_999"]
               (handleFilesSelected [file_a; file_b; file_c]).

Definition sample_store : Backend.Store :=
  {| Backend.uploads := list_to_set (map (fun n => "f_" +:+ pretty n) (seq 0 12));
     Backend.tasks := ∅;
     Backend.queue := [] |}.

Definition sample_task_id (m : gmap string Backend.Task) (fileId : string)
  : string := "t_" +:+ fileId.

Definition eleven_ids : list string :=
  map (fun n => "f_" +:+ pretty n) (seq 0 11).

(** *** Worker runs *)

(** A ready worker has an instance. *)
Definition ready_has_instance {FS} (st : State FS) : Prop :=
  ffReady st = true -> is_Some (ffmpeg st).

(** A later state of the worker: what was posted and what was run is
    kept, a ready worker is still ready and still has its instance. *)
Definition extends {FS} (st st' : State FS) : Prop :=
  outbox st `prefix_of` outbox st' /\ ran st `prefix_of` ran st'
  /\ (ffReady st = true -> ffReady st' = true)
  /\ (ready_has_instance st -> ready_has_instance st').

(** The handler run on a sequence of message events, one after the
    other. *)
Definition run_messages {FS} (eng : Engine FS) (msgs : list (option Data))
    (st : State FS) : State FS :=
  foldl (fun st data => fst (onmessage eng data st)) st msgs.

(** A message the handler answers. *)
Definition is_request (data : option Data) : bool :=
  bool_decide (data ≫= type = Some "probe")
  || bool_decide (data ≫= type = Some "convert").

(** Two engines whose instances behave alike; they may differ in how the
    script and the core are loaded. *)
Definition same_instance {FS} (e1 e2 : Engine FS) : Prop :=
  FS_writeFile e1 = FS_writeFile e2 /\ ff_run e1 = ff_run e2
  /\ FS_readFile e1 = FS_readFile e2
  /\ crossOriginIsolated e1 = crossOriginIsolated e2.

(** [sample_engine] once the network is gone. *)
Definition unplugged_engine : Engine (list (string * bytes)) :=
  {| importScripts := Err (new_Error "NetworkError");
     umd_available := false;
     createFFmpeg := [];
     ff_load := Err (new_Error "NetworkError");
     FS_writeFile := FS_writeFile sample_engine;
     ff_run := ff_run sample_engine;
     FS_readFile := FS_readFile sample_engine;
     crossOriginIsolated := crossOriginIsolated sample_engine |}.

(** ASCII lower case, as [toLowerCase] acts on the characters of a
    file name or of a colour literal. *)
Definition ascii_lower (c : ascii) : ascii :=
  let n := nat_of_ascii c in
  if (65 <=? n)%nat && (n <=? 90)%nat then ascii_of_nat (n + 32) else c.

Fixpoint toLowerCase (s : string) : string :=
  match s with
  | "" => ""
  | String c rest => String (ascii_lower c) (toLowerCase rest)
  end.

Definition in_byte_range (rgb : Rgb) : Prop :=
  (0 <= r rgb < 256)%Z /\ (0 <= g rgb < 256)%Z /\ (0 <= b rgb < 256)%Z.

(** *** More of [App.tsx] *)

(** [handleRemoveFile] and [handleClearAll]: the new value of [files]. *)
Definition handleRemoveFile (fid : string)
    (prevFiles : list FileProcessingState) : list FileProcessingState :=
  filter (fun f => fileId (file f) <> fid) prevFiles.

Definition handleClearAll : list FileProcessingState := [].

Definition hasSuccessfulFiles (files : list FileProcessingState) : bool :=
  existsb (fun f => bool_decide (status f = SUCCESS)) files.

(** The period, in milliseconds, of the interval the polling effect
    installs (lines 36-55). *)
Definition hasRunningTasks (files : list FileProcessingState) : bool :=
  existsb (fun f => bool_decide (status f = RUNNING)
                    || bool_decide (status f = PENDING)) files.

Definition poll_interval (files : list FileProcessingState) : Z :=
  if hasRunningTasks files then 1000%Z else 5000%Z.

(** [handleBatchDownload]: the task ids it asks for, then the archive
    handed to [downloadBlob] with its file name (if any) and the
    notification. *)
Definition successfulTasks (files : list FileProcessingState)
  : list string :=
  map (fun f => default "" (taskId f))
      (filter (fun f => bool_decide (status f = SUCCESS)
                        && JS.truthy_string (taskId f) = true) files).

Definition handleBatchDownload (batchDownload : list string -> result bytes)
    (files : list FileProcessingState) : option (bytes * string) * Toast :=
  if decide (length (successfulTasks files) = 0) then
    (None, Warning "没有可下载的文件")
  else
    match batchDownload (successfulTasks files) with
    | Ok blob => (Some (blob, "transparent_videos.zip"), Success "下载完成")
    | Err _ => (None, Error "批量下载失败")
    end.

(** A file the client no longer asks the server about. *)
Definition settled (f : FileProcessingState) : Prop :=
  taskId f = None \/ status f = SUCCESS \/ status f = FAILED.

(** A server that reports every task as running, with a result URL. *)
Definition api_with_url (t : string) : result TaskInfo.t :=
  Ok {| TaskInfo.taskId := t; TaskInfo.status := RUNNING;
        TaskInfo.progress := Some 40%Q;
        TaskInfo.resultUrl := Some "https://cdn/out.webm";
        TaskInfo.errorCode := None; TaskInfo.errorMessage := None |}.

(** Three files of which the server named a task for the first only. *)
Definition one_of_three_started : list FileProcessingState :=
  start_update ["t_501"] (handleFilesSelected [file_a; file_b; file_c]).

Definition archive_of (ids : list string) : result bytes :=
  Ok (map (fun _ => Byte.x50) ids).

(** The [i]-th file of a list, for reading samples. *)
Definition nth_file (i : nat) (files : list FileProcessingState)
  : FileProcessingState :=
  default {| file := file_a; taskId := None; status := PENDING;
             progress := 0; resultUrl := None; error := None |}
          (files !! i).

Definition url_files : list FileProcessingState :=
  pollTaskStatus api_with_url three_running.

(** ** The requests of [services/api.ts] *)

Module Api.

(** The body of an error response ([types/index.ts]). *)
Record ApiError := { code : string; message : string }.

(** How an axios request ends: with the data of a response, or rejected,
    with the [error] object of the response body when there is one
    ([error.response?.data?.error]). *)
Inductive Axios (A : Type) :=
| Resolved (data : A)
| Rejected (error : option ApiError).
Arguments Resolved {A} data.
Arguments Rejected {A} error.

(** The [catch] blocks of [uploadFiles], [convertFiles] and
    [getTaskStatus]: the server's message when the body has an error,
    else the text of the function. *)
Definition rethrow {A} (fallback : string) (o : Axios A) : result A :=
  match o with
  | Resolved data => Ok data
  | Rejected (Some e) => Err (new_Error (message e))
  | Rejected None => Err (new_Error fallback)
  end.

(** The [catch] blocks of [downloadFile], [batchDownload] and
    [healthCheck]: always the text of the function. *)
Definition rethrow_plain {A} (text : string) (o : Axios A) : result A :=
  match o with
  | Resolved data => Ok data
  | Rejected _ => Err (new_Error text)
  end.

Definition uploadFiles {File : Type}
    (post : list File -> Axios (list Client.FileInfo)) (files : list File)
  : result (list Client.FileInfo) :=
  rethrow "上传失败，请重试" (post files).

Definition convertFiles {Options : Type}
    (post : list string -> Options -> Axios (list string))
    (fileIds : list string) (options : Options) : result (list string) :=
  rethrow "启动转换失败，请重试" (post fileIds options).

Definition getTaskStatus (get : string -> Axios Client.TaskInfo.t)
    (taskId : string) : result Client.TaskInfo.t :=
  rethrow "获取任务状态失败" (get taskId).

Definition downloadFile (get : string -> Axios Worker.bytes)
    (fileId : string) : result Worker.bytes :=
  rethrow_plain "下载文件失败" (get fileId).

Definition batchDownload (post : list string -> Axios Worker.bytes)
    (taskIds : list string) : result Worker.bytes :=
  rethrow_plain "批量下载失败" (post taskIds).

End Api.

(** ** [utils/index.ts] *)

Module Utils.

(** The properties of a browser [File] the client reads. *)
Record File := { name : string; type : string; size : Q }.

Definition validateFileType (file : File) : bool :=
  bool_decide (type file ∈ ["video/mp4"; "video/quicktime"; "video/webm"]).

Definition validateFileSize (file : File) (maxSizeMB : Q) : bool :=
  let maxSizeBytes := (maxSizeMB * 1024 * 1024)%Q in
  Qle_bool (size file) maxSizeBytes.

(** [Math.floor], and the remainder [a % b] of two numbers, which takes
    the sign of [a]. *)
Definition Math_floor (x : Q) : Z := Qfloor x.
Definition Math_trunc (x : Q) : Z :=
  if Qle_bool 0 x then Qfloor x else Qceiling x.
Definition rem (a b : Q) : Q := (a - b * inject_Z (Math_trunc (a / b)))%Q.

Definition formatDuration (seconds : Q) : string :=
  if Qeq_bool seconds 0 then "0:00"
  else
    let minutes := Math_floor (seconds / 60) in
    let remainingSeconds := Math_floor (rem seconds 60) in
    JS.Number_toString (inject_Z minutes) +:+ ":"
      +:+ JS.padStart2 (JS.Number_toString (inject_Z remainingSeconds)).

(** [filename.split('.').pop()?.toLowerCase() || '']; lower case is
    taken on ASCII letters. *)
Definition getFileExtension (filename : string) : string :=
  toLowerCase (List.last (split_on "." filename) "").

Definition getStatusColor (status : Client.TaskStatus) : string :=
  match status with
  | Client.PENDING => "#faad14"
  | Client.RUNNING => "#1890ff"
  | Client.SUCCESS => "#52c41a"
  | Client.FAILED => "#ff4d4f"
  end.

End Utils.

(** ** [components/FileCard.tsx] *)

Module FileCard.

(** One tick of the animation of a pending card (lines 26-29). *)
Definition tick (prev : Z) : Z :=
  let next := (prev + 2)%Z in
  if (20 <? next)%Z then 0%Z else next.

(** The name a result is saved under (line 44). *)
Definition download_name (name : string) : string :=
  List.hd "" (split_on "." name) +:+ "_transparent.webm".

(** [handleDownload]: the blob handed to [downloadBlob] and its file
    name, when there is a download. *)
Definition handleDownload (downloadFile : string -> result Worker.bytes)
    (f : Client.FileProcessingState) : option (Worker.bytes * string) :=
  if String.eqb (Client.fileId (Client.file f)) ""
     || negb (bool_decide (Client.status f = Client.SUCCESS))
  then None
  else
    match downloadFile (Client.fileId (Client.file f)) with
    | Ok blob => Some (blob, download_name (Client.name (Client.file f)))
    | Err _ => None
    end.

End FileCard.

(** ** [components/ConvertOptions.tsx] *)

Module OptionsPanel.

(** The values the sliders show. *)
Definition shown_tolerance (options : Settings) : Q :=
  JS.or_number (tolerance options) 10.
Definition shown_feather (options : Settings) : Q :=
  JS.or_number (feather options) (1 # 2).
Definition shown_morphology (options : Settings) : Q :=
  JS.or_number (morphologyIterations options) 1.

(** [handleFieldChange('tolerance', value)]: the options handed to
    [onChange]. *)
Definition change_tolerance (value : Q) (options : Settings) : Settings :=
  {| color := color options; tolerance := Some value;
     feather := feather options; applyToAll := applyToAll options;
     edgeEnhancement := edgeEnhancement options;
     edgeThresholdLow := edgeThresholdLow options;
     edgeThresholdHigh := edgeThresholdHigh options;
     morphologyIterations := morphologyIterations options;
     removeWatermark := removeWatermark options;
     wmX := wmX options; wmY := wmY options;
     wmW := wmW options; wmH := wmH options |}.

End OptionsPanel.

(** *** Samples for the requests and the upload check *)

Definition not_char (sep : ascii) (c : ascii) : bool :=
  negb (Ascii.eqb c sep).

Definition rejecting_post (e : option Api.ApiError)
    (ids : list string) (o : Settings) : Api.Axios (list string) :=
  Api.Rejected e.

Definition clip_mp4 : Utils.File :=
  {| Utils.name := "clip.mp4"; Utils.type := "video/mp4";
     Utils.size := 52428800 |}.

(** ** [utils/performance.ts] *)

Module Perf.

#[global] Instance Qle_decision (x y : Q) : Decision (x <= y)%Q.
Proof.
  destruct (Qlt_le_dec y x) as [H|H]; [right|left; exact H].
  apply Qlt_not_le, H.
Defined.

(** *** [PerformanceMonitor]: the field [metrics] and the methods *)

Definition recordMetric (name : string) (value : Q)
    (metrics : gmap string (list Q)) : gmap string (list Q) :=
  let values := default [] (metrics !! name) ++ [value] in
  <[name := if decide (100 < length values)%nat then tail values else values]>
    metrics.

Definition getAverage (name : string) (metrics : gmap string (list Q)) : Q :=
  let values := default [] (metrics !! name) in
  if decide (length values = 0%nat) then 0%Q
  else (foldl Qplus 0 values / inject_Z (Z.of_nat (length values)))%Q.

(** [sorted[Math.max(0, index)]] is [undefined] past the end: [None]. *)
Definition getPercentile (name : string) (percentile : Q)
    (metrics : gmap string (list Q)) : option Q :=
  let values := default [] (metrics !! name) in
  if decide (length values = 0%nat) then Some 0%Q
  else
    let sorted := merge_sort Qle values in
    let index :=
      (Qceiling ((percentile / 100)
                 * inject_Z (Z.of_nat (length sorted))) - 1)%Z in
    sorted !! Z.to_nat (Z.max 0 index).

(** [clearMetrics(name?)]: a missing name and the empty name are both
    falsy. *)
Definition clearMetrics (name : option string)
    (metrics : gmap string (list Q)) : gmap string (list Q) :=
  if JS.truthy_string name then delete (default "" name) metrics else ∅.

(** The monitor after a sequence of [recordMetric] calls on a new one. *)
Definition record_all (events : list (string * Q)) : gmap string (list Q) :=
  foldl (fun m e => recordMetric (fst e) (snd e) m) ∅ events.

(** The values recorded under a name, oldest first. *)
Definition recorded (name : string) (events : list (string * Q)) : list Q :=
  map snd (filter (fun e => fst e = name) events).

(** *** [calculateVisibleItems]

    [totalItems] and [overscan] are counts and are taken as integers. *)
Record Visible := { startIndex : Z; endIndex : Z; offsetY : Q }.

Definition calculateVisibleItems (containerHeight itemHeight scrollTop : Q)
    (totalItems overscan : Z) : Visible :=
  let visibleStart := Qfloor (scrollTop / itemHeight) in
  let visibleEnd :=
    Z.min (visibleStart + Qceiling (containerHeight / itemHeight))
          (totalItems - 1) in
  {| startIndex := Z.max 0 (visibleStart - overscan);
     endIndex := Z.min (totalItems - 1) (visibleEnd + overscan);
     offsetY := (inject_Z (Z.max 0 (visibleStart - overscan)) * itemHeight)%Q |}.

(** *** [batchOperations]

    The loop [for (i = 0; i < items.length; i += batchSize)], with
    [batchSize] a natural number; it runs on fuel, [None] standing for a
    loop that has not finished. *)
Fixpoint batches_from {A} (fuel : nat) (items : list A) (i batchSize : nat)
  : option (list (list A)) :=
  match fuel with
  | O => None
  | S k =>
      if decide (i < length items)%nat then
        cons (take batchSize (drop i items))
          <$> batches_from k items (i + batchSize) batchSize
      else Some []
  end.

Definition batchOperations {A} (fuel : nat) (items : list A)
    (operation : list A -> result unit) (batchSize : nat)
  : option (result (list unit)) :=
  Client.Promise_all <$> (map operation <$> batches_from fuel items 0 batchSize).

End Perf.

Definition sample_metrics : gmap string (list Q) :=
  Perf.record_all [("convert", 30%Q); ("upload", 5%Q); ("convert", 10%Q);
                   ("convert", 20%Q); ("convert", 40%Q)].

(** ** The isolation service worker ([src/coi-serviceworker.js]) *)

Module COI.

(** A [Response]: status, status text, headers and body ([None] for
    [null]).  A [Headers] object compares names without regard to case;
    it is a map from names in lower case. *)
Record Response := {
  status : Z;
  statusText : string;
  headers : gmap string string;
  body : option Worker.bytes
}.

Definition Headers_set (name value : string) (h : gmap string string)
  : gmap string string := <[toLowerCase name := value]> h.

Definition Headers_has (name : string) (h : gmap string string) : bool :=
  bool_decide (is_Some (h !! toLowerCase name)).

(** Statuses whose response has no body. *)
Definition null_body_status (s : Z) : bool :=
  bool_decide (s ∈ [101; 103; 204; 205; 304]%Z).

Definition RangeError (msg : string) : exn :=
  Exn (Some msg) ("RangeError: " +:+ msg).

(** [new Response(body, { status, statusText, headers })]: the status
    must lie in 200..599, and a status without body takes no body. *)
Definition new_Response (body : option Worker.bytes) (status : Z)
    (statusText : string) (headers : gmap string string) : result Response :=
  if ((status <? 200) || (599 <? status))%Z then
    Err (RangeError "The status provided is outside the range [200, 599].")
  else if bool_decide (is_Some body) && null_body_status status then
    Err (Worker.TypeError "Response with null body status cannot have body")
  else
    Ok {| status := status; statusText := statusText; headers := headers;
          body := body |}.

Definition withIsolationHeaders (response : Response) : result Response :=
  let newHeaders := headers response in
  let newHeaders :=
    Headers_set "Cross-Origin-Opener-Policy" "same-origin" newHeaders in
  let newHeaders :=
    Headers_set "Cross-Origin-Embedder-Policy" "require-corp" newHeaders in
  let newHeaders :=
    if negb (Headers_has "Cross-Origin-Resource-Policy" newHeaders)
    then Headers_set "Cross-Origin-Resource-Policy" "same-origin" newHeaders
    else newHeaders in
  new_Response (body response) (status response) (statusText response)
               newHeaders.

(** What the [fetch] listener reads of a request. *)
Record Request := { origin : string; mode : string }.

(** [new Response('Offline', { status: 200, headers: ... })] *)
Definition offline : Response :=
  {| status := 200; statusText := "";
     headers := {[ "content-type" := "text/plain" ]};
     body := Some [Byte.x4f; Byte.x66; Byte.x66; Byte.x6c; Byte.x69;
                   Byte.x6e; Byte.x65] |}.

(** The [fetch] listener: [None] when it returns without
    [event.respondWith], else the outcome of the promise it responds
    with.  [fetch req noStore] is the network, [noStore] telling whether
    the request was made with [cache: 'no-store']. *)
Definition on_fetch (self_origin : string)
    (fetch : Request -> bool -> result Response) (req : Request)
  : option (result Response) :=
  if negb (String.eqb (origin req) self_origin) then None
  else if String.eqb (mode req) "navigate" then
    Some (match fetch req true with
          | Ok r =>
              match withIsolationHeaders r with
              | Ok r' => Ok r'
              | Err _ => Ok offline
              end
          | Err _ => Ok offline
          end)
  else
    Some (match fetch req false with
          | Ok r => withIsolationHeaders r
          | Err e => Err e
          end).

(** The three names in the form a [Headers] object keeps them. *)
Definition COOP : string := "cross-origin-opener-policy".
Definition COEP : string := "cross-origin-embedder-policy".
Definition CORP : string := "cross-origin-resource-policy".

Definition isolated (r : Response) : Prop :=
  headers r !! COOP = Some "same-origin"
  /\ headers r !! COEP = Some "require-corp"
  /\ is_Some (headers r !! CORP).

End COI.

Definition page_response : COI.Response :=
  {| COI.status := 200; COI.statusText := "OK";
     COI.headers := {[ "content-type" := "text/html";
                       "cross-origin-resource-policy" := "cross-origin" ]};
     COI.body := Some [Byte.x3c] |}.

Definition redirect_response : COI.Response :=
  {| COI.status := 0; COI.statusText := "";
     COI.headers := ∅; COI.body := None |}.

Definition isolated_page : COI.Response :=
  {| COI.status := 200; COI.statusText := "OK";
     COI.headers := {[ "content-type" := "text/html";
                       "cross-origin-embedder-policy" := "require-corp";
                       "cross-origin-opener-policy" := "same-origin";
                       "cross-origin-resource-policy" := "cross-origin" ]};
     COI.body := Some [Byte.x3c] |}.

Definition failing_fetch (req : COI.Request) (noStore : bool)
  : result COI.Response := Err (new_Error "Failed to fetch").

Definition navigation : COI.Request :=
  {| COI.origin := "https://app.example"; COI.mode := "navigate" |}.

(** ** The parameter mapping of the worker *)

Lemma or_number_positive (x : Q) (d : Q) :
  (0 < x)%Q -> JS.or_number (Some x) d = x.
Proof.
  intros H. unfold JS.or_number.
  destruct (Qeq_bool x 0) eqn:E; [|reflexivity].
  apply Qeq_bool_eq in E. rewrite E in H. exfalso. revert H. apply Qlt_irrefl.
Qed.

Lemma or_number_zero (x : Q) (d : Q) :
  (x == 0)%Q -> JS.or_number (Some x) d = d.
Proof.
  intros H. unfold JS.or_number.
  destruct (Qeq_bool x 0) eqn:E; [reflexivity|].
  apply Qeq_bool_neq in E. contradiction.
Qed.

Lemma tol_of_in_range (s : Settings) (t : Q) :
  tolerance s = Some t -> (0 < t)%Q -> (t <= 100)%Q ->
  (tol_of s == t / 100)%Q.
Proof.
  intros Ht Hpos Hle. unfold tol_of, JS.Math_min, JS.Math_max.
  rewrite Ht, or_number_positive by assumption.
  assert (H0 : (0 <= t / 100)%Q).
  { apply Qle_shift_div_l; [reflexivity|]. rewrite Qmult_0_l.
    apply Qlt_le_weak, Hpos. }
  assert (H1 : (t / 100 <= 1)%Q).
  { apply Qle_shift_div_r; [reflexivity|]. rewrite Qmult_1_l. exact Hle. }
  rewrite (Q.max_r _ _ H0). apply Q.min_r. exact H1.
Qed.

Lemma tol_of_falsy (s : Settings) :
  tolerance s = None \/ (exists t, tolerance s = Some t /\ (t == 0)%Q) ->
  tol_of s = (50 / 100)%Q.
Proof.
  intros [H | (t & H & Hz)]; unfold tol_of; rewrite H.
  - reflexivity.
  - rewrite or_number_zero by assumption. reflexivity.
Qed.

(** C1. For a tolerance in (0,100] the similarity is exactly
    tolerance/100, so 100 maps to 1; a tolerance of 0 is taken for a
    missing one and maps to the default 50/100 = 0.5 instead of 0. *)
Theorem similarity_of_tolerance (s : Settings) (t : Q) :
  tolerance s = Some t ->
  ((0 < t)%Q -> (t <= 100)%Q -> (tol_of s == t / 100)%Q)
  /\ ((t == 0)%Q -> (tol_of s == 1 # 2)%Q /\ ~ (tol_of s == t / 100)%Q).
Proof.
  intros Ht. split.
  - intros. apply (tol_of_in_range s t); assumption.
  - intros Hz.
    rewrite (tol_of_falsy s) by (right; exists t; split; assumption).
    split; [reflexivity|]. rewrite Hz. discriminate.
Qed.

Lemma similarity_of_tolerance_witness :
  (tol_of (with_tolerance 100) == 1)%Q
  /\ (tol_of (with_tolerance 0) == 1 # 2)%Q
  /\ vf (with_tolerance 0) = "colorkey=0x000000:0.5:0.1".
Proof.
  split; [|split].
  - destruct (similarity_of_tolerance (with_tolerance 100) 100 eq_refl)
      as [H _].
    rewrite H; [reflexivity | reflexivity | discriminate].
  - destruct (similarity_of_tolerance (with_tolerance 0) 0 eq_refl)
      as [_ H].
    apply H. reflexivity.
  - reflexivity.
Defined.

(** ** Characters of the generated chain *)

Lemma all_chars_app (P : ascii -> bool) (a b : string) :
  all_chars P (a +:+ b) = all_chars P a && all_chars P b.
Proof.
  induction a as [|c a IH]; simpl; [reflexivity|].
  rewrite IH. apply andb_assoc.
Qed.

Lemma all_chars_impl (P Q : ascii -> bool) (s : string) :
  (forall c, P c = true -> Q c = true) ->
  all_chars P s = true -> all_chars Q s = true.
Proof.
  intros HPQ. induction s as [|c s IH]; simpl; [reflexivity|].
  intros [Hc Hs]%andb_prop. rewrite (HPQ _ Hc), (IH Hs). reflexivity.
Qed.

Lemma split_on_not_nil (sep : ascii) (s : string) : split_on sep s <> [].
Proof.
  destruct s as [|c s]; simpl; [discriminate|].
  destruct (Ascii.eqb c sep); [discriminate|].
  destruct (split_on sep s); discriminate.
Qed.

Lemma split_on_app (sep : ascii) (a b : string) :
  all_chars (fun c => negb (Ascii.eqb c sep)) a = true ->
  split_on sep (a +:+ String sep b) = a :: split_on sep b.
Proof.
  induction a as [|c a IH]; simpl.
  - intros _. rewrite Ascii.eqb_refl. reflexivity.
  - intros [Hc Ha]%andb_prop. apply negb_true_iff in Hc. rewrite Hc.
    rewrite (IH Ha). reflexivity.
Qed.

Lemma split_on_none (sep : ascii) (a : string) :
  all_chars (fun c => negb (Ascii.eqb c sep)) a = true ->
  split_on sep a = [a].
Proof.
  induction a as [|c a IH]; simpl; [reflexivity|].
  intros [Hc Ha]%andb_prop. apply negb_true_iff in Hc. rewrite Hc.
  rewrite (IH Ha). reflexivity.
Qed.

Lemma plain_not (sep : ascii) (s : string) :
  sep = ","%char \/ sep = "="%char \/ sep = ":"%char ->
  all_chars plain s = true ->
  all_chars (fun c => negb (Ascii.eqb c sep)) s = true.
Proof.
  intros Hsep. apply all_chars_impl. intros c. unfold plain.
  intros [[H1 H2]%andb_prop H3]%andb_prop.
  destruct Hsep as [-> | [-> | ->]]; assumption.
Qed.

Lemma plain_digit_char (d : Z) :
  (0 <= d < 36)%Z -> plain (JS.digit_char d) = true.
Proof.
  intros Hd.
  assert (H : forallb (fun k => plain (JS.digit_char (Z.of_nat k)))
                      (seq 0 36) = true) by (vm_compute; reflexivity).
  rewrite forallb_forall in H.
  specialize (H (Z.to_nat d)). rewrite Z2Nat.id in H by lia.
  apply H, in_seq. lia.
Qed.

Lemma int_digits_plain (fuel : nat) (radix n : Z) (acc : string) :
  (1 < radix <= 36)%Z -> all_chars plain acc = true ->
  all_chars plain (JS.int_digits fuel radix n acc) = true.
Proof.
  intros Hr. revert n acc.
  induction fuel as [|k IH]; intros n acc Hacc; simpl; [exact Hacc|].
  assert (Hd : plain (JS.digit_char (n mod radix)) = true).
  { apply plain_digit_char.
    pose proof (Z.mod_pos_bound n radix). lia. }
  destruct (n / radix =? 0)%Z.
  - simpl. rewrite Hd, Hacc. reflexivity.
  - apply IH. simpl. rewrite Hd, Hacc. reflexivity.
Qed.

Lemma frac_digits_plain (fuel : nat) (num den : Z) :
  (0 <= num < den)%Z -> all_chars plain (JS.frac_digits fuel num den) = true.
Proof.
  revert num. induction fuel as [|k IH]; intros num Hn; simpl; [reflexivity|].
  destruct (num =? 0)%Z; [reflexivity|]. simpl.
  rewrite IH by (apply Z.mod_pos_bound; lia).
  rewrite plain_digit_char; [reflexivity|].
  split; [apply Z.div_pos; lia|].
  assert (10 * num / den < 10)%Z
    by (apply Z.div_lt_upper_bound; lia).
  lia.
Qed.

Lemma Number_toString_plain (x : Q) :
  all_chars plain (JS.Number_toString x) = true.
Proof.
  unfold JS.Number_toString.
  set (d := Z.pos (Qden x)). set (a := Z.abs (Qnum x)).
  assert (Hi : all_chars plain (JS.int_toString 10 (a / d)) = true)
    by (apply int_digits_plain; [lia|reflexivity]).
  assert (Hf : all_chars plain (JS.frac_digits 16 (a mod d) d) = true)
    by (apply frac_digits_plain, Z.mod_pos_bound; reflexivity).
  assert (Hb : all_chars plain
                 (if String.eqb (JS.frac_digits 16 (a mod d) d) ""
                  then JS.int_toString 10 (a / d)
                  else JS.int_toString 10 (a / d) +:+ "." +:+
                       JS.frac_digits 16 (a mod d) d) = true).
  { destruct (String.eqb _ ""); [exact Hi|].
    rewrite !all_chars_app, Hi, Hf. reflexivity. }
  destruct (Qnum x <? 0)%Z; [|exact Hb].
  rewrite all_chars_app, Hb. reflexivity.
Qed.

Lemma hex2_plain (n : Z) : all_chars plain (hex2 n) = true.
Proof.
  unfold hex2.
  assert (H : all_chars plain (JS.int_toString 16 n) = true)
    by (apply int_digits_plain; [lia|reflexivity]).
  destruct (JS.int_toString 16 n) as [|c [|c' s]]; simpl in *;
    [reflexivity| |exact H].
  rewrite andb_true_r in H. rewrite H. reflexivity.
Qed.

Lemma targetColor_plain (rgb : Rgb) :
  all_chars plain (targetColor rgb) = true.
Proof.
  unfold targetColor. rewrite !all_chars_app, !hex2_plain. reflexivity.
Qed.

(** The chain is one [colorkey] stage with three arguments. *)
Lemma stages_vf (s : Settings) :
  stages (vf s) =
  [ {| stage_name := "colorkey";
       stage_args := [ targetColor (rgb_of s);
                       JS.Number_toString (tol_of s);
                       "0.1" ] |} ].
Proof.
  unfold stages, vf.
  pose proof (targetColor_plain (rgb_of s)) as HT.
  pose proof (Number_toString_plain (tol_of s)) as HN.
  set (T := targetColor (rgb_of s)) in *.
  set (N := JS.Number_toString (tol_of s)) in *.
  assert (HTn : forall sep, sep = ","%char \/ sep = "="%char \/ sep = ":"%char ->
            all_chars (fun c => negb (Ascii.eqb c sep)) T = true)
    by (intros; apply plain_not; assumption).
  assert (HNn : forall sep, sep = ","%char \/ sep = "="%char \/ sep = ":"%char ->
            all_chars (fun c => negb (Ascii.eqb c sep)) N = true)
    by (intros; apply plain_not; assumption).
  clearbody T N.
  rewrite (split_on_none ","%char).
  2:{ rewrite !all_chars_app, HTn, HNn by auto. reflexivity. }
  simpl map. unfold parse_stage.
  change ("colorkey=" +:+ T +:+ ":" +:+ N +:+ ":0.1")
    with ("colorkey" +:+ String "=" (T +:+ String ":" (N +:+ String ":" "0.1"))).
  rewrite (split_on_app "="%char) by reflexivity.
  rewrite (split_on_none "="%char).
  2:{ rewrite all_chars_app. simpl. rewrite all_chars_app, HTn, HNn by auto.
      reflexivity. }
  rewrite (split_on_app ":"%char) by auto.
  rewrite (split_on_app ":"%char) by auto.
  reflexivity.
Qed.

Lemma chroma_key_args (s : Settings) :
  chroma_key_arg 0 (vf s) = Some (targetColor (rgb_of s))
  /\ chroma_key_arg 1 (vf s) = Some (JS.Number_toString (tol_of s))
  /\ chroma_key_arg 2 (vf s) = Some "0.1".
Proof. unfold chroma_key_arg. rewrite stages_vf. repeat split. Qed.

(** C2. The blend argument of the chroma-key stage is the constant 0.1
    for every settings value: the feather that was read does not reach
    the chain, and two settings that differ in their feather only give
    the same chain. *)
Theorem blend_ignores_feather (s : Settings) :
  chroma_key_arg 2 (vf s) = Some "0.1"
  /\ forall s', color s' = color s -> tolerance s' = tolerance s ->
       vf s' = vf s.
Proof.
  split; [apply chroma_key_args|].
  intros s' Hc Ht. unfold vf, rgb_of, tol_of. rewrite Hc, Ht. reflexivity.
Qed.

(** At feather 5 the value feather/10 prints as 0.5; the chain carries
    0.1, as it does at feather 1. *)
Lemma blend_ignores_feather_witness :
  (feather_of (with_feather 5) == 5)%Q
  /\ JS.Number_toString (feather_of (with_feather 5) / 10) = "0.5"
  /\ chroma_key_arg 2 (vf (with_feather 5)) = Some "0.1"
  /\ vf (with_feather 5) = vf (with_feather 1)
  /\ vf (with_feather 5) = "colorkey=0x000000:0.1:0.1".
Proof.
  destruct (blend_ignores_feather (with_feather 1)) as [_ H].
  split; [reflexivity|]. split; [reflexivity|].
  split; [apply (blend_ignores_feather (with_feather 5))|].
  split; [apply H; reflexivity|reflexivity].
Defined.

Lemma tol_of_above (s : Settings) (t : Q) :
  tolerance s = Some t -> (100 < t)%Q -> tol_of s = 1%Q.
Proof.
  intros Ht H. unfold tol_of, JS.Math_min, JS.Math_max. rewrite Ht.
  assert (Hpos : (0 < t)%Q) by (eapply Qlt_trans; [|exact H]; reflexivity).
  rewrite or_number_positive by exact Hpos.
  assert (H1 : (1 < t / 100)%Q).
  { apply Qlt_shift_div_l; [reflexivity|]. rewrite Qmult_1_l. exact H. }
  assert (H0 : (0 < t / 100)%Q) by (eapply Qlt_trans; [|exact H1]; reflexivity).
  assert (E0 : Qcompare 0 (t / 100) = Lt) by (apply Qlt_alt; exact H0).
  assert (E1 : Qcompare 1 (t / 100) = Lt) by (apply Qlt_alt; exact H1).
  unfold Qmax, Qmin, GenericMinMax.gmax, GenericMinMax.gmin.
  rewrite E0, E1. reflexivity.
Qed.

Lemma tol_of_below (s : Settings) (t : Q) :
  tolerance s = Some t -> (t < 0)%Q -> tol_of s = 0%Q.
Proof.
  intros Ht H. unfold tol_of, JS.Math_min, JS.Math_max. rewrite Ht.
  assert (Hnz : JS.or_number (Some t) 50 = t).
  { unfold JS.or_number. destruct (Qeq_bool t 0) eqn:E; [|reflexivity].
    apply Qeq_bool_eq in E. rewrite E in H. exfalso. revert H.
    apply Qlt_irrefl. }
  rewrite Hnz.
  assert (H0 : (t / 100 < 0)%Q).
  { apply Qlt_shift_div_r; [reflexivity|]. rewrite Qmult_0_l. exact H. }
  assert (E0 : Qcompare 0 (t / 100) = Gt) by (apply Qgt_alt; exact H0).
  unfold Qmax, Qmin, GenericMinMax.gmax, GenericMinMax.gmin.
  rewrite E0. reflexivity.
Qed.

Lemma tol_of_bounds (s : Settings) : (0 <= tol_of s)%Q /\ (tol_of s <= 1)%Q.
Proof.
  unfold tol_of, JS.Math_min, JS.Math_max. split.
  - apply Q.min_glb; [discriminate|apply Q.le_max_l].
  - apply Q.le_min_l.
Qed.

(** C3 (amended). No numeric option is rejected: the similarity is the
    tolerance scaled and clamped into [0,1] (a tolerance above 100 gives
    1, a negative one gives 0), a negative feather is raised to 0, and
    the chain is produced with the clamped similarity. *)
Theorem out_of_range_is_clamped (s : Settings) :
  ((0 <= tol_of s)%Q /\ (tol_of s <= 1)%Q)
  /\ (0 <= feather_of s)%Q
  /\ (forall t, tolerance s = Some t ->
        ((100 < t)%Q -> tol_of s = 1%Q /\ chroma_key_arg 1 (vf s) = Some "1")
        /\ ((t < 0)%Q -> tol_of s = 0%Q /\ chroma_key_arg 1 (vf s) = Some "0"))
  /\ chroma_key_arg 1 (vf s) = Some (JS.Number_toString (tol_of s)).
Proof.
  split; [apply tol_of_bounds|].
  split; [apply Q.le_max_l|].
  split; [|apply chroma_key_args].
  intros t Ht.
  destruct (chroma_key_args s) as (_ & Harg & _).
  split; intros H; rewrite Harg.
  - rewrite (tol_of_above s t Ht H). split; reflexivity.
  - rewrite (tol_of_below s t Ht H). split; reflexivity.
Qed.

Lemma out_of_range_is_clamped_witness :
  tol_of (with_tolerance 150) = 1%Q
  /\ chroma_key_arg 1 (vf (with_tolerance 150)) = Some "1"
  /\ tol_of (with_tolerance (-5)) = 0%Q.
Proof.
  destruct (out_of_range_is_clamped (with_tolerance 150))
    as (_ & _ & H & _).
  destruct (H 150%Q eq_refl) as [Hhi _].
  destruct (Hhi eq_refl) as [H1 H2].
  destruct (out_of_range_is_clamped (with_tolerance (-5)))
    as (_ & _ & H' & _).
  destruct (H' (-5)%Q eq_refl) as [_ Hlo].
  destruct (Hlo eq_refl) as [H3 _].
  repeat split; assumption.
Defined.

(** C3, as stated, fails: a convert message with tolerance 150 is
    answered by [convert:ok], and the engine was run on the chain with
    similarity 1. *)
Lemma tolerance_150_is_not_rejected :
  replies sample_engine (convert_message (with_tolerance 150)) init
    = [ConvertOk [Byte.x1a]]
  /\ ran (fst (onmessage sample_engine
                         (convert_message (with_tolerance 150)) init))
     = [ [ "-i"; "a.mp4"; "-vf"; "colorkey=0x000000:1:0.1";
           "-c:v"; "libvpx-vp9"; "-b:v"; "1.8M";
           "-pix_fmt"; "yuva420p"; "-an"; "out.webm" ] ].
Proof. split; reflexivity. Qed.

(** C4 (amended). Whatever [removeWatermark] is, the chain is a single
    chroma-key stage: it contains no watermark-masking stage. *)
Theorem chain_is_single_chroma_key (s : Settings) :
  exists st, stages (vf s) = [st]
    /\ is_chroma_key st = true /\ is_watermark_mask st = false.
Proof. rewrite stages_vf. eexists. repeat split. Qed.

(** C4, as stated, fails on the documented options, which ask for
    watermark removal. *)
Lemma sample_chain_has_no_mask :
  removeWatermark sample_settings = Some true
  /\ stages (vf sample_settings)
     = [ {| stage_name := "colorkey";
            stage_args := ["0x000000"; "0.1"; "0.1"] |} ]
  /\ ~ mask_before_every_chroma (stages (vf sample_settings)).
Proof.
  split; [reflexivity|]. split; [reflexivity|].
  intros (i & m & Hi & Hm & _).
  change (stages (vf sample_settings))
    with [ {| stage_name := "colorkey";
              stage_args := ["0x000000"; "0.1"; "0.1"] |} ] in Hi.
  destruct i as [|i]; simpl in Hi; [|discriminate].
  injection Hi as <-. discriminate Hm.
Qed.

(** ** The colour of the key *)

Lemma strip_hash_cases (c : string) :
  (exists rest, c = String "#" rest /\ strip_hash c = rest)
  \/ (strip_hash c = c /\ forall rest, c <> String "#" rest).
Proof.
  destruct c as [|a rest].
  - right. split; [reflexivity|discriminate].
  - destruct (Ascii.eqb_spec a "#") as [-> | Hne].
    + left. exists rest. split; reflexivity.
    + right. split; [|congruence].
      destruct a as [[] [] [] [] [] [] [] []]; try reflexivity.
      contradiction Hne; reflexivity.
Qed.

Lemma six_hex_digits_chars (ds : string) :
  six_hex_digits ds <->
  exists c1 c2 c3 c4 c5 c6,
    ds = String c1 (String c2 (String c3 (String c4 (String c5 (String c6 "")))))
    /\ forallb JS.is_hex [c1; c2; c3; c4; c5; c6] = true.
Proof.
  unfold six_hex_digits. split.
  - intros [Hlen Hall].
    destruct ds as [|c1 [|c2 [|c3 [|c4 [|c5 [|c6 [|c7 r]]]]]]];
      try discriminate Hlen.
    exists c1, c2, c3, c4, c5, c6. split; [reflexivity|exact Hall].
  - intros (c1 & c2 & c3 & c4 & c5 & c6 & -> & H). split; [reflexivity|].
    exact H.
Qed.

Lemma six_hex_digits_exec (ds : string) :
  six_hex_digits ds -> strip_hash ds = ds /\ hex_exec ds <> None.
Proof.
  intros (c1 & c2 & c3 & c4 & c5 & c6 & -> & H)%six_hex_digits_chars.
  assert (Hs : strip_hash
                 (String c1 (String c2 (String c3 (String c4
                   (String c5 (String c6 ""))))))
               = String c1 (String c2 (String c3 (String c4
                   (String c5 (String c6 "")))))).
  { destruct (strip_hash_cases
                (String c1 (String c2 (String c3 (String c4
                   (String c5 (String c6 "")))))))
      as [(rest & E & _) | [E _]]; [|exact E].
    injection E as -> _. discriminate H. }
  split; [exact Hs|]. unfold hex_exec. rewrite Hs, H. discriminate.
Qed.

(** The pattern of [hexToRgbObj] accepts exactly the colour literals. *)
Lemma hex_exec_literal (c : string) :
  hex_exec c <> None <-> is_color_literal c.
Proof.
  split.
  - intros H. unfold hex_exec in H.
    destruct (strip_hash_cases c) as [(rest & -> & E) | [E _]];
      rewrite E in H.
    + right. exists rest. split; [reflexivity|].
      apply six_hex_digits_chars.
      destruct rest as [|c1 [|c2 [|c3 [|c4 [|c5 [|c6 [|c7 r]]]]]]];
        try (contradiction H; reflexivity).
      exists c1, c2, c3, c4, c5, c6. split; [reflexivity|].
      destruct (forallb JS.is_hex _); [reflexivity|].
      contradiction H; reflexivity.
    + left. apply six_hex_digits_chars.
      destruct c as [|c1 [|c2 [|c3 [|c4 [|c5 [|c6 [|c7 r]]]]]]];
        try (contradiction H; reflexivity).
      exists c1, c2, c3, c4, c5, c6. split; [reflexivity|].
      destruct (forallb JS.is_hex _); [reflexivity|].
      contradiction H; reflexivity.
  - intros [H | (ds & -> & H)].
    + apply six_hex_digits_exec, H.
    + destruct (six_hex_digits_exec ds H) as [Hs Hex].
      unfold hex_exec in *. simpl strip_hash. rewrite Hs in Hex. exact Hex.
Qed.

Lemma hex_value_range (c : ascii) (v : Z) :
  JS.hex_value c = Some v -> (0 <= v < 16)%Z.
Proof.
  unfold JS.hex_value.
  repeat match goal with
         | |- context [if ?b then _ else _] => destruct b eqn:?
         end; intros [= <-]; lia.
Qed.

Lemma parseInt16_range (a b : ascii) : (0 <= JS.parseInt16 a b < 256)%Z.
Proof.
  unfold JS.parseInt16.
  destruct (JS.hex_value a) as [x|] eqn:Ha; [|lia].
  destruct (JS.hex_value b) as [y|] eqn:Hb; [|lia].
  apply hex_value_range in Ha, Hb. lia.
Qed.

Lemma hexToRgbObj_range (hex : string) :
  let rgb := hexToRgbObj hex in
  (0 <= r rgb < 256)%Z /\ (0 <= g rgb < 256)%Z /\ (0 <= b rgb < 256)%Z.
Proof.
  unfold hexToRgbObj.
  destruct (hex_exec hex) as [[[[r1 r2] [g1 g2]] [b1 b2]]|]; simpl.
  - repeat split; apply parseInt16_range.
  - lia.
Qed.

Lemma hex2_shape (n : Z) :
  (0 <= n < 256)%Z ->
  String.length (hex2 n) = 2%nat /\ all_chars JS.is_hex (hex2 n) = true.
Proof.
  intros Hn.
  assert (H : forallb (fun k => Nat.eqb (String.length (hex2 (Z.of_nat k))) 2
                                && all_chars JS.is_hex (hex2 (Z.of_nat k)))
                      (seq 0 256) = true) by (vm_compute; reflexivity).
  rewrite forallb_forall in H.
  specialize (H (Z.to_nat n)). rewrite Z2Nat.id in H by lia.
  destruct (andb_prop _ _ (H ltac:(apply in_seq; lia))) as [H1 H2].
  split; [apply Nat.eqb_eq, H1|exact H2].
Qed.

Lemma string_length_app (a b : string) :
  String.length (a +:+ b) = (String.length a + String.length b)%nat.
Proof. induction a as [|c a IH]; simpl; [reflexivity|]. rewrite IH. reflexivity. Qed.

Lemma targetColor_token (rgb : Rgb) :
  (0 <= r rgb < 256)%Z -> (0 <= g rgb < 256)%Z -> (0 <= b rgb < 256)%Z ->
  is_color_token (targetColor rgb).
Proof.
  intros Hr Hg Hb. exists (hex2 (r rgb) +:+ hex2 (g rgb) +:+ hex2 (b rgb)).
  split; [reflexivity|].
  destruct (hex2_shape _ Hr) as [L1 A1].
  destruct (hex2_shape _ Hg) as [L2 A2].
  destruct (hex2_shape _ Hb) as [L3 A3].
  split.
  - rewrite !string_length_app, L1, L2, L3. reflexivity.
  - rewrite !all_chars_app, A1, A2, A3. reflexivity.
Qed.

Lemma rgb_of_invalid (s : Settings) :
  (forall c, color s = Some c -> ~ is_color_literal c) -> rgb_of s = black.
Proof.
  intros H. unfold rgb_of, JS.or_string.
  destruct (color s) as [c|]; [|reflexivity].
  destruct (String.eqb c ""); [reflexivity|].
  unfold hexToRgbObj.
  destruct (hex_exec c) eqn:E; [|reflexivity].
  exfalso. apply (H c eq_refl), hex_exec_literal. rewrite E. discriminate.
Qed.

(** C9. A colour that is not an optional [#] followed by six hexadecimal
    digits (a missing or empty one included) is replaced by black, the
    total function [hexToRgbObj] having no error result; and for every
    settings value the colour token of the chain is [0x] followed by six
    hexadecimal digits. *)
Theorem invalid_color_is_black (s : Settings) :
  ((forall c, color s = Some c -> ~ is_color_literal c) ->
     rgb_of s = black
     /\ chroma_key_arg 0 (vf s) = Some "0x000000")
  /\ is_color_token (targetColor (rgb_of s))
  /\ chroma_key_arg 0 (vf s) = Some (targetColor (rgb_of s)).
Proof.
  destruct (chroma_key_args s) as (Harg & _).
  split; [|split; [|exact Harg]].
  - intros H. rewrite Harg, (rgb_of_invalid s H). split; reflexivity.
  - unfold rgb_of. destruct (hexToRgbObj_range (JS.or_string (color s) "#000000"))
      as (Hr & Hg & Hb).
    apply targetColor_token; assumption.
Qed.

Lemma not_literal_red : ~ is_color_literal "red".
Proof.
  intros [[H _] | (ds & H & _)]; discriminate H.
Defined.

Lemma invalid_color_is_black_witness :
  rgb_of (with_color "red") = black
  /\ chroma_key_arg 0 (vf (with_color "red")) = Some "0x000000".
Proof.
  destruct (invalid_color_is_black (with_color "red")) as [H _].
  apply H. intros c [= <-]. exact not_literal_red.
Defined.

Example color_tokens :
  targetColor (rgb_of (with_color "#1A2b3C")) = "0x1a2b3c"
  /\ targetColor (rgb_of (with_color "0a0B0c")) = "0x0a0b0c"
  /\ targetColor (rgb_of (with_color "#12345")) = "0x000000"
  /\ targetColor (rgb_of (with_color "#1234567")) = "0x000000"
  /\ targetColor (rgb_of (with_color "")) = "0x000000"
  /\ targetColor (rgb_of no_settings) = "0x000000".
Proof. repeat split. Qed.

(** ** Effects of the worker *)

Ltac unfold_worker :=
  unfold onmessage, try_catch, handle, runFFmpegColorKey, ensureFFmpeg,
    on_ff, log_run, postMessage, set_ffmpeg, set_ffReady, get_ffReady,
    lift, throw, mbind, M_bind, mret, M_ret.

Section WorkerEffects.
Context {FS : Type} (eng : Engine FS).

(** [ensureFFmpeg] posts nothing and runs nothing. *)
Lemma ensureFFmpeg_logs (st : State FS) :
  outbox (fst (ensureFFmpeg eng st)) = outbox st
  /\ ran (fst (ensureFFmpeg eng st)) = ran st.
Proof.
  unfold_worker. simpl.
  destruct (ffReady st); simpl; [split; reflexivity|].
  destruct (importScripts eng); simpl; [|split; reflexivity].
  destruct (umd_available eng); simpl; [|split; reflexivity].
  destruct (ff_load eng); simpl; split; reflexivity.
Qed.

(** [runFFmpegColorKey] posts nothing, and calls [ff.run] at most once,
    on [args fileName s]. *)
Lemma runFFmpegColorKey_logs (inputU8 : bytes) (fileName : string)
    (s : Settings) (st : State FS) :
  let st' := fst (runFFmpegColorKey eng inputU8 fileName s st) in
  outbox st' = outbox st
  /\ (ran st' = ran st \/ ran st' = ran st ++ [args fileName s]).
Proof.
  pose proof (ensureFFmpeg_logs st) as [Ho Hr].
  unfold runFFmpegColorKey, mbind, M_bind.
  destruct (ensureFFmpeg eng st) as [st1 [[]|e]]; simpl in *;
    [|split; [exact Ho|left; exact Hr]].
  unfold on_ff, log_run.
  destruct (ffmpeg st1) as [fs|]; simpl; [|split; [exact Ho|left; exact Hr]].
  destruct (FS_writeFile eng fs fileName inputU8) as [fs1 [[]|e]]; simpl;
    [|split; [exact Ho|left; exact Hr]].
  destruct (ff_run eng fs1 (args fileName s)) as [fs2 [[]|e]]; simpl;
    [|split; [exact Ho|right; rewrite Hr; reflexivity]].
  destruct (FS_readFile eng fs2 "out.webm"); simpl;
    (split; [exact Ho|right; rewrite Hr; reflexivity]).
Qed.

Lemma invoked_cases (inputU8 : bytes) (fileName : string) (s : Settings)
    (st : State FS) :
  invoked eng inputU8 fileName s st = []
  \/ invoked eng inputU8 fileName s st = [args fileName s].
Proof.
  unfold invoked.
  destruct (runFFmpegColorKey_logs inputU8 fileName s st) as [_ [H | H]];
    rewrite H.
  - left. apply drop_all.
  - right. apply drop_app_length.
Qed.

(** When the instance is ready and the input can be written, the engine
    is run, and it is run on [args fileName s]. *)
Lemma invoked_when_ready (inputU8 : bytes) (fileName : string)
    (s : Settings) (st : State FS) (fs fs' : FS) :
  ffReady st = true -> ffmpeg st = Some fs ->
  FS_writeFile eng fs fileName inputU8 = (fs', Ok tt) ->
  invoked eng inputU8 fileName s st = [args fileName s].
Proof.
  intros Hready Hff Hw. unfold invoked. unfold_worker. simpl.
  rewrite Hready. simpl. rewrite Hff, Hw. simpl.
  destruct (ff_run eng fs' (args fileName s)) as [fs2 [[]|e]]; simpl;
    [destruct (FS_readFile eng fs2 "out.webm"); simpl|];
    apply drop_app_length.
Qed.

(** The [try] block posts exactly one message when it completes and none
    when it throws. *)
Lemma handle_posts (ty : option string) (pl : option Payload)
    (st : State FS) :
  ty = Some "probe" \/ ty = Some "convert" ->
  match handle eng ty pl st with
  | (st', Ok _) =>
      exists m, outbox st' = outbox st ++ [m]
        /\ (ty = Some "probe" -> m = ProbeOk (crossOriginIsolated eng))
        /\ (ty = Some "convert" -> exists buffer, m = ConvertOk buffer)
  | (st', Err _) => outbox st' = outbox st
  end.
Proof.
  intros Hty. unfold handle.
  destruct (decide (ty = Some "probe")) as [Hp | Hnp].
  - pose proof (ensureFFmpeg_logs st) as [Ho _].
    unfold mbind, M_bind.
    destruct (ensureFFmpeg eng st) as [st1 [[]|e]]; simpl in *; [|exact Ho].
    eexists. split; [rewrite Ho; reflexivity|].
    split; [reflexivity|]. intros ->. discriminate Hp.
  - destruct (decide (ty = Some "convert")) as [Hc | Hnc];
      [|destruct Hty; contradiction].
    unfold mbind, M_bind.
    destruct pl as [p|]; simpl; [|reflexivity].
    pose proof (runFFmpegColorKey_logs (default [] (fileBuffer p))
                  (JS.or_string (fileName p) "input.mp4")
                  (default no_settings (settings p)) st) as [Ho _].
    destruct (runFFmpegColorKey eng _ _ _ st) as [st1 [out|e]];
      simpl in *; [|exact Ho].
    eexists. split; [rewrite Ho; reflexivity|].
    split; [intros ->; discriminate Hc|]. intros _. eexists; reflexivity.
Qed.

End WorkerEffects.

(** C8. Two calls of [runFFmpegColorKey] with the same file name and the
    same settings hand the same argument list to the engine, whatever the
    engines, the worker states and the input bytes are: the list is
    [args fileName s], the [colorkey] filter string included. *)
Theorem args_deterministic {FS1 FS2 : Type}
    (eng1 : Engine FS1) (eng2 : Engine FS2)
    (st1 : State FS1) (st2 : State FS2) (in1 in2 : bytes)
    (fileName : string) (s : Settings) (a1 a2 : list string) :
  a1 ∈ invoked eng1 in1 fileName s st1 ->
  a2 ∈ invoked eng2 in2 fileName s st2 ->
  a1 = a2 /\ a1 = args fileName s /\ a1 !! 3%nat = Some (vf s).
Proof.
  intros H1 H2.
  destruct (invoked_cases eng1 in1 fileName s st1) as [E1 | E1];
    rewrite E1 in H1; [inversion H1|].
  destruct (invoked_cases eng2 in2 fileName s st2) as [E2 | E2];
    rewrite E2 in H2; [inversion H2|].
  apply list_elem_of_singleton in H1, H2. subst. repeat split.
Qed.

Lemma args_deterministic_witness :
  invoked sample_engine [Byte.x00] "a.mp4" sample_settings init
    = [args "a.mp4" sample_settings]
  /\ invoked sample_engine [Byte.xff] "a.mp4" sample_settings warm_state
    = [args "a.mp4" sample_settings]
  /\ args "a.mp4" sample_settings !! 3%nat
    = Some "colorkey=0x000000:0.1:0.1".
Proof.
  split; [reflexivity|]. split; [reflexivity|].
  assert (H1 : args "a.mp4" sample_settings
               ∈ invoked sample_engine [Byte.x00] "a.mp4" sample_settings init)
    by (vm_compute; constructor).
  assert (H2 : args "a.mp4" sample_settings
               ∈ invoked sample_engine [Byte.xff] "a.mp4" sample_settings
                   warm_state)
    by (vm_compute; constructor).
  destruct (args_deterministic sample_engine sample_engine init warm_state
              [Byte.x00] [Byte.xff] "a.mp4" sample_settings _ _ H1 H2)
    as (_ & _ & H).
  exact H.
Defined.



Example onmessage_replies :
  replies sample_engine (convert_message sample_settings) init
    = [ConvertOk [Byte.x1a]]
  /\ replies sample_engine
             (Some {| type := Some "convert"; payload := None |}) init
     = [ErrorMsg "Cannot destructure 'payload' as it is undefined."]
  /\ replies sample_engine
             (Some {| type := Some "other"; payload := None |}) init = []
  /\ replies sample_engine None init = [].
Proof. repeat split. Qed.

(** ** Status sequences on the client *)

Lemma step_ok_refl (a : TaskStatus) : step_ok a a = true.
Proof. destruct a; reflexivity. Qed.

(** A chain of lifecycle steps from [PENDING] reads as a prefix of the
    lifecycle. *)
Lemma chain_ok_observed (a : TaskStatus) (l : list TaskStatus) :
  chain_ok a l = true ->
  match a with
  | PENDING => observed (a :: l) ∈
      [[PENDING]; [PENDING; RUNNING]; [PENDING; RUNNING; SUCCESS];
       [PENDING; RUNNING; FAILED]]
  | RUNNING => observed (a :: l) ∈
      [[RUNNING]; [RUNNING; SUCCESS]; [RUNNING; FAILED]]
  | SUCCESS => observed (a :: l) = [SUCCESS]
  | FAILED => observed (a :: l) = [FAILED]
  end.
Proof.
  revert a. induction l as [|b l IH]; intros a H.
  - destruct a; simpl; try reflexivity; set_solver.
  - simpl in H. apply andb_prop in H as [Hab Hl].
    specialize (IH b Hl).
    change (observed (a :: b :: l))
      with (if decide (a = b) then observed (b :: l)
            else a :: observed (b :: l)).
    set (o := observed (b :: l)) in *. clearbody o.
    destruct a, b; try discriminate Hab;
      (destruct (decide _) as [E|E]; [|try (contradiction E; reflexivity)];
       try discriminate E);
      first [ exact IH
            | rewrite IH; set_solver
            | apply list_elem_of_In in IH; simpl in IH;
              destruct IH as [<- | [<- | [<- | []]]]; set_solver ].
Qed.

Lemma chain_ok_lifecycle (l : list TaskStatus) :
  chain_ok PENDING l = true -> lifecycle_prefix (PENDING :: l).
Proof.
  intros H. pose proof (chain_ok_observed PENDING l H) as H'.
  cbv beta iota in H'. unfold lifecycle_prefix.
  set (o := observed (PENDING :: l)) in *. clearbody o.
  apply list_elem_of_In in H'. simpl in H'.
  destruct H' as [<- | [<- | [<- | [<- | []]]]].
  - left. eexists; reflexivity.
  - left. eexists; reflexivity.
  - left. eexists; reflexivity.
  - right. eexists; reflexivity.
Qed.

Lemma Promise_all_Ok {A} (ps : list (result A)) (rs : list A) :
  Promise_all ps = Ok rs -> Forall2 (fun p r => p = Ok r) ps rs.
Proof.
  revert rs. induction ps as [|[a|e] ps IH]; intros rs H; simpl in H.
  - injection H as <-. constructor.
  - destruct (Promise_all ps) as [l|e]; [|discriminate].
    injection H as <-. constructor; [reflexivity|]. apply IH. reflexivity.
  - discriminate.
Qed.

Lemma Promise_all_Err {A} (ps : list (result A)) :
  Exists (fun p => is_ok p = false) ps -> is_ok (Promise_all ps) = false.
Proof.
  induction ps as [|[a|e] ps IH]; intros H; simpl.
  - inversion H.
  - apply Exists_cons in H as [H | H]; [discriminate H|].
    specialize (IH H). destruct (Promise_all ps); [discriminate IH|reflexivity].
  - reflexivity.
Qed.

Lemma Promise_all_all_ok {A} (ps : list (result A)) :
  Forall (fun p => is_ok p = true) ps -> exists rs, Promise_all ps = Ok rs.
Proof.
  induction ps as [|[a|e] ps IH]; intros H; simpl.
  - eexists; reflexivity.
  - apply Forall_cons in H as [_ H]. destruct (IH H) as [rs ->].
    eexists; reflexivity.
  - apply Forall_cons in H as [H _]. discriminate H.
Qed.

Section Polling.
Context (api : string -> result TaskInfo.t).

Lemma poll_update_taskId (rs : list TaskInfo.t) (f : FileProcessingState) :
  taskId (poll_update rs f) = taskId f.
Proof. unfold poll_update. destruct (List.find _ rs); reflexivity. Qed.

Lemma poll_update_status (rs : list TaskInfo.t) (f : FileProcessingState) :
  status (poll_update rs f) = status f
  \/ exists r, r ∈ rs /\ Some (TaskInfo.taskId r) = taskId f
       /\ status (poll_update rs f) = TaskInfo.status r.
Proof.
  unfold poll_update.
  destruct (List.find _ rs) as [r|] eqn:E; [|left; reflexivity].
  right. exists r. apply find_some in E as [Hin Hb].
  apply bool_decide_eq_true in Hb.
  split; [apply list_elem_of_In, Hin|]. split; [exact Hb|reflexivity].
Qed.

Lemma poll_update_nil (f : FileProcessingState) : poll_update [] f = f.
Proof. reflexivity. Qed.

(** Every entry of a successful poll answers the task id of an active
    file. *)
Lemma statusResults_origin (files : list FileProcessingState)
    (rs : list TaskInfo.t) (r : TaskInfo.t) :
  statusResults api files = Ok rs -> r ∈ rs ->
  exists g t, g ∈ files /\ is_active g = true /\ taskId g = Some t
    /\ api t = Ok r.
Proof.
  intros H Hr. apply Promise_all_Ok in H.
  apply list_elem_of_lookup in Hr as [i Hi].
  destruct (Forall2_lookup_r _ _ _ _ _ H Hi) as (p & Hp & Hpr).
  rewrite list_lookup_fmap in Hp.
  destruct (polled_ids files !! i) as [t|] eqn:Ht; [|discriminate].
  injection Hp as <-.
  unfold polled_ids in Ht. rewrite list_lookup_fmap in Ht.
  destruct (activeTasks files !! i) as [g|] eqn:Hg; [|discriminate].
  injection Ht as <-.
  apply list_elem_of_lookup_2 in Hg. unfold activeTasks in Hg.
  apply list_elem_of_filter in Hg as [Hact Hin].
  assert (Htr : JS.truthy_string (taskId g) = true).
  { unfold is_active in Hact. apply andb_prop in Hact as [Hact _].
    exact Hact. }
  destruct (taskId g) as [t|] eqn:Hid; [|discriminate Htr].
  exists g, t. repeat split; assumption.
Qed.

Lemma pollTaskStatus_cases (files : list FileProcessingState) :
  pollTaskStatus api files = files
  \/ exists rs, statusResults api files = Ok rs
       /\ pollTaskStatus api files = map (poll_update rs) files.
Proof.
  unfold pollTaskStatus. destruct (decide _); [left; reflexivity|].
  destruct (statusResults api files) as [rs|e]; [|left; reflexivity].
  right. exists rs. split; reflexivity.
Qed.

Lemma pollTaskStatus_length (files : list FileProcessingState) :
  length (pollTaskStatus api files) = length files.
Proof.
  destruct (pollTaskStatus_cases files) as [-> | (rs & _ & ->)];
    [reflexivity|apply length_map].
Qed.

(** One poll against a server that echoes task ids and reports no
    [PENDING]: each file makes a lifecycle step, and the invariant is
    kept. *)
Lemma pollTaskStatus_step (files : list FileProcessingState) :
  echoes_running api -> coherent files ->
  coherent (pollTaskStatus api files)
  /\ forall i f f', files !! i = Some f ->
       pollTaskStatus api files !! i = Some f' ->
       step_ok (status f) (status f') = true.
Proof.
  intros Hapi [Hnp Hsame].
  destruct (pollTaskStatus_cases files) as [-> | (rs & Hrs & ->)].
  { split; [split; assumption|]. intros i f f' H1 H2.
    rewrite H1 in H2. injection H2 as <-. apply step_ok_refl. }
  assert (Hrun : forall f r, f ∈ files -> r ∈ rs ->
             Some (TaskInfo.taskId r) = taskId f ->
             status f = RUNNING /\ TaskInfo.status r <> PENDING).
  { intros f r Hf Hr Hid.
    destruct (statusResults_origin files rs r Hrs Hr)
      as (g & t & Hg & Hact & Hgid & Hr').
    destruct (Hapi t r Hr') as [Hecho Hst]. split; [|exact Hst].
    assert (Hfg : status f = status g).
    { apply Hsame; try assumption.
      - rewrite <- Hid, Hgid, Hecho. reflexivity.
      - rewrite <- Hid. eexists; reflexivity. }
    rewrite Hfg. unfold is_active in Hact.
    apply andb_prop in Hact as [_ Hact]. apply orb_prop in Hact as [Hact | Hact];
      apply bool_decide_eq_true in Hact; [exact Hact|].
    contradiction (Hnp g Hg). }
  split; [split|].
  - intros f' Hf'. apply list_elem_of_fmap in Hf' as (f & -> & Hf).
    destruct (poll_update_status rs f) as [-> | (r & Hr & Hid & ->)].
    + apply Hnp, Hf.
    + apply (Hrun f r Hf Hr Hid).
  - intros f' g' Hf' Hg' Hid Hsome.
    apply list_elem_of_fmap in Hf' as (f & -> & Hf).
    apply list_elem_of_fmap in Hg' as (g & -> & Hg).
    rewrite !poll_update_taskId in Hid. rewrite poll_update_taskId in Hsome.
    unfold poll_update. rewrite <- Hid.
    destruct (List.find _ rs); [reflexivity|].
    apply Hsame; assumption.
  - intros i f f' Hf Hf'. rewrite list_lookup_fmap, Hf in Hf'.
    injection Hf' as <-. apply list_elem_of_lookup_2 in Hf.
    destruct (poll_update_status rs f) as [-> | (r & Hr & Hid & ->)].
    + apply step_ok_refl.
    + destruct (Hrun f r Hf Hr Hid) as [-> Hst].
      destruct (TaskInfo.status r); [contradiction Hst|..]; reflexivity.
Qed.

End Polling.

Lemma status_history_cons (i : nat) (files : list FileProcessingState)
    (states : list (list FileProcessingState)) :
  status_history i (files :: states) =
  match files !! i with
  | Some f => status f :: status_history i states
  | None => status_history i states
  end.
Proof. unfold status_history. simpl. destruct (files !! i); reflexivity. Qed.

Lemma step_length (app : App) (e : Event) :
  length (app_files (step app e)) = length (app_files app).
Proof.
  destruct e as [|k api]; simpl.
  - unfold on_tick. destruct (decide _); reflexivity.
  - unfold on_answered. destruct (in_flight app !! k); [|reflexivity].
    simpl. destruct (Promise_all _); [apply length_map|reflexivity].
Qed.

(** One event of a run whose polls do not overlap: each file makes a
    lifecycle step, and the invariant is kept. *)
Lemma step_in_step (app : App) (e : Event) :
  in_step app ->
  match e with
  | Tick => in_flight app = [] \/ activeTasks (app_files app) = []
  | Answered _ api => echoes_running api
  end ->
  in_step (step app e)
  /\ forall i f f', app_files app !! i = Some f ->
       app_files (step app e) !! i = Some f' ->
       step_ok (status f) (status f') = true.
Proof.
  intros [Hco Hfl] He.
  assert (Hsame : forall i f f', app_files app !! i = Some f ->
            app_files app !! i = Some f' ->
            step_ok (status f) (status f') = true).
  { intros i f f' H1 H2. rewrite H1 in H2. injection H2 as <-.
    apply step_ok_refl. }
  destruct e as [|k api]; simpl.
  - unfold on_tick. destruct (decide _) as [Hz|Hnz].
    + split; [split; assumption|exact Hsame].
    + split; [|exact Hsame]. split; [exact Hco|]. right. simpl.
      split; [|exact Hnz].
      destruct He as [-> | Hnone]; [reflexivity|].
      rewrite Hnone in Hnz. contradiction Hnz. reflexivity.
  - unfold on_answered.
    destruct Hfl as [Hnil | [Hone Hnz]].
    { rewrite Hnil. simpl. split; [split; [exact Hco|left; exact Hnil]|].
      exact Hsame. }
    rewrite Hone. destruct k as [|k]; simpl.
    + assert (E : match Promise_all (map api (polled_ids (app_files app))) with
                  | Ok results => map (poll_update results) (app_files app)
                  | Err _ => app_files app
                  end = pollTaskStatus api (app_files app)).
      { unfold pollTaskStatus, statusResults.
        destruct (decide _) as [Hz|_]; [contradiction|reflexivity]. }
      rewrite E.
      destruct (pollTaskStatus_step api (app_files app) He Hco) as [Hco' Hst].
      split; [split; [exact Hco'|left; reflexivity]|exact Hst].
    + split; [split; [exact Hco|right; split; assumption]|exact Hsame].
Qed.

Lemma run_chain (events : list Event) (app : App) (i : nat)
    (f : FileProcessingState) :
  answers_echo events -> one_at_a_time events app -> in_step app ->
  app_files app !! i = Some f ->
  chain_ok (status f) (status_history i (map app_files (run events app)))
  = true.
Proof.
  intros Hecho. revert app f.
  induction Hecho as [|e events He _ IH]; intros app f Hone Hin Hf;
    [reflexivity|].
  destruct Hone as [Hnow Hone].
  assert (Hev : match e with
                | Tick => in_flight app = [] \/ activeTasks (app_files app) = []
                | Answered _ api => echoes_running api
                end).
  { destruct e; [exact Hnow|exact He]. }
  destruct (step_in_step app e Hin Hev) as [Hin' Hstep].
  simpl run. simpl map. rewrite status_history_cons.
  assert (Hlt : (i < length (app_files (step app e)))%nat).
  { rewrite step_length. eapply lookup_lt_Some, Hf. }
  apply lookup_lt_is_Some in Hlt as [f' Hf']. rewrite Hf'. simpl.
  rewrite (Hstep i f f' Hf Hf'). apply (IH _ _ Hone Hin' Hf').
Qed.

Lemma run_absent (events : list Event) (app : App) (i : nat) :
  app_files app !! i = None ->
  status_history i (map app_files (run events app)) = [].
Proof.
  revert app. induction events as [|e events IH]; intros app Hf;
    [reflexivity|].
  simpl run. simpl map. rewrite status_history_cons.
  assert (Hn : app_files (step app e) !! i = None).
  { apply lookup_ge_None. rewrite step_length. apply lookup_ge_None, Hf. }
  rewrite Hn. apply IH, Hn.
Qed.

Lemma start_update_lookup (taskIds : list string)
    (files : list FileProcessingState) (i : nat) (f : FileProcessingState) :
  start_update taskIds files !! i = Some f ->
  status f = RUNNING /\ taskId f = taskIds !! i /\ is_Some (files !! i).
Proof.
  unfold start_update. rewrite list_lookup_imap.
  destruct (files !! i) as [f0|]; simpl; [|discriminate].
  intros [= <-]. repeat split. eexists; reflexivity.
Qed.

(** Right after a convert start every file is [RUNNING]. *)
Lemma start_update_coherent (taskIds : list string)
    (files : list FileProcessingState) :
  coherent (start_update taskIds files).
Proof.
  split.
  - intros f [i Hi]%list_elem_of_lookup.
    apply start_update_lookup in Hi as [-> _]. discriminate.
  - intros f g [i Hi]%list_elem_of_lookup [j Hj]%list_elem_of_lookup _ _.
    apply start_update_lookup in Hi as [-> _].
    apply start_update_lookup in Hj as [-> _]. reflexivity.
Qed.


Lemma echoes_running_reporting (st : TaskStatus) :
  st <> PENDING -> echoes_running (api_reporting st).
Proof.
  intros Hst t s [= <-]. split; [reflexivity|exact Hst].
Defined.



(** It also fails when two polls overlap, although the server never
    reports PENDING and names every task: the answers of the later poll
    arrive first and report SUCCESS, then the answers of the earlier
    poll arrive and put the file back to RUNNING. *)
Lemma late_answer_goes_back :
  answers_echo [Tick; Tick; Answered 1 (api_reporting SUCCESS);
                Answered 0 (api_reporting RUNNING)]
  /\ status_history 0
       (session [file_a] ["t_501"]
          [Tick; Tick; Answered 1 (api_reporting SUCCESS);
           Answered 0 (api_reporting RUNNING)])
     = [PENDING; RUNNING; RUNNING; RUNNING; SUCCESS; RUNNING]
  /\ ~ lifecycle_prefix
         (status_history 0
            (session [file_a] ["t_501"]
               [Tick; Tick; Answered 1 (api_reporting SUCCESS);
                Answered 0 (api_reporting RUNNING)])).
Proof.
  split; [|split; [reflexivity|]].
  - apply Forall_cons_2; [exact I|].
    apply Forall_cons_2; [exact I|].
    apply Forall_cons_2; [apply echoes_running_reporting; discriminate|].
    apply Forall_cons_2; [apply echoes_running_reporting; discriminate|].
    apply Forall_nil_2.
  - change (status_history 0
              (session [file_a] ["t_501"]
                 [Tick; Tick; Answered 1 (api_reporting SUCCESS);
                  Answered 0 (api_reporting RUNNING)]))
      with [PENDING; RUNNING; RUNNING; RUNNING; SUCCESS; RUNNING].
    intros [[k H] | [k H]]; discriminate H.
Qed.

(** ** Polls with unknown task ids *)

(** C6 (amended). A poll asks about every active task separately and
    awaits the answers together.  When one request fails, the poll as a
    whole fails and no file changes; when all succeed, there is one entry
    per task asked about and the files are updated from the entries. *)
Theorem poll_is_all_or_nothing (api : string -> result TaskInfo.t)
    (files : list FileProcessingState) :
  (Exists (fun t => is_ok (api t) = false) (polled_ids files) ->
     is_ok (statusResults api files) = false
     /\ pollTaskStatus api files = files)
  /\ (Forall (fun t => is_ok (api t) = true) (polled_ids files) ->
       exists rs, statusResults api files = Ok rs
         /\ Forall2 (fun t r => api t = Ok r) (polled_ids files) rs
         /\ pollTaskStatus api files = map (poll_update rs) files).
Proof.
  split.
  - intros H.
    assert (He : is_ok (statusResults api files) = false).
    { apply Promise_all_Err. apply Exists_fmap. exact H. }
    split; [exact He|]. unfold pollTaskStatus.
    destruct (decide _); [reflexivity|].
    destruct (statusResults api files); [discriminate He|reflexivity].
  - intros H.
    destruct (Promise_all_all_ok (map api (polled_ids files))) as [rs Hrs].
    { apply Forall_fmap. exact H. }
    exists rs. split; [exact Hrs|]. split.
    + apply Promise_all_Ok in Hrs. apply Forall2_fmap_l in Hrs. exact Hrs.
    + unfold pollTaskStatus, statusResults. rewrite Hrs.
      destruct (decide _) as [Hz|]; [|reflexivity].
      unfold polled_ids in Hrs.
      apply nil_length_inv in Hz. rewrite Hz in Hrs.
      injection Hrs as <-.
      symmetry. etransitivity; [|apply list_fmap_id].
      apply list_fmap_ext. intros ? f _. apply poll_update_nil.
Qed.

Lemma poll_is_all_or_nothing_witness :
  pollTaskStatus api_two_known three_running = three_running
  /\ map status (pollTaskStatus (api_reporting SUCCESS) three_running)
     = [SUCCESS; SUCCESS; SUCCESS].
Proof.
  destruct (poll_is_all_or_nothing api_two_known three_running) as [H _].
  destruct H as [_ H].
  { vm_compute. right. right. left. reflexivity. }
  split; [exact H|reflexivity].
Defined.

(** C6, as stated, fails: with two known task ids and one unknown the
    poll yields no entries at all, and the two files whose tasks the
    server reports as SUCCESS stay RUNNING. *)
Lemma one_unknown_id_fails_the_poll :
  polled_ids three_running = ["t_501"; "t_502"; "t_999"]
  /\ map (fun t => is_ok (api_two_known t)) (polled_ids three_running)
     = [true; true; false]
  /\ ~ (exists rs, statusResults api_two_known three_running = Ok rs
                   /\ length rs = 2%nat)
  /\ map status (pollTaskStatus api_two_known three_running)
     = [RUNNING; RUNNING; RUNNING].
Proof.
  split; [reflexivity|]. split; [reflexivity|]. split; [|reflexivity].
  intros (rs & H & _). discriminate H.
Qed.

(** ** The batch limit *)

Lemma create_all_length
    (new_task_id : gmap string Backend.Task -> string -> string)
    (st : Backend.Store) (fileIds : list string) :
  length (snd (Backend.create_all new_task_id st fileIds)) = length fileIds.
Proof.
  revert st. induction fileIds as [|f rest IH]; intros st; [reflexivity|].
  simpl.
  match goal with
  | |- context [Backend.create_all _ ?s rest] =>
      specialize (IH s);
      destruct (Backend.create_all new_task_id s rest) as [st2 ids]
  end.
  simpl in *. rewrite IH. reflexivity.
Qed.

(** The count check of [beforeUpload] shows a message; the function
    returns [false] on every path. *)
Lemma beforeUpload_returns_false (fileName : string)
    (validType validSize : bool)
    (fileListLength filesLength maxFiles maxSizeMB : nat) :
  fst (beforeUpload fileName validType validSize fileListLength filesLength
         maxFiles maxSizeMB) = false.
Proof.
  unfold beforeUpload.
  destruct validType, validSize; simpl; try reflexivity.
  destruct (decide _); reflexivity.
Qed.

(** C7. A convert request with more than 10 file ids fails with
    [LIMIT_EXCEEDED_COUNT] and leaves the store as it was, so that no
    task is created, and the client that sent it keeps its files
    unchanged; a request with at most 10 file ids is never answered by
    [LIMIT_EXCEEDED_COUNT]. *)
Theorem convert_count_limit {Options : Type}
    (new_task_id : gmap string Backend.Task -> string -> string)
    (error_text : Backend.ErrorCode -> string)
    (st : Backend.Store) (fileIds : list string) (options : Options) :
  ((10 < length fileIds)%nat ->
     Backend.convert new_task_id st fileIds options
       = (st, inl Backend.LIMIT_EXCEEDED_COUNT)
     /\ forall files, map (fun f => fileId (file f)) files = fileIds ->
          fst (handleStartConvert
                 (Backend.convertFiles new_task_id error_text st)
                 options files) = files)
  /\ ((length fileIds <= 10)%nat ->
       snd (Backend.convert new_task_id st fileIds options)
         <> inl Backend.LIMIT_EXCEEDED_COUNT).
Proof.
  split.
  - intros Hlen.
    assert (Hc : Backend.convert new_task_id st fileIds options
                 = (st, inl Backend.LIMIT_EXCEEDED_COUNT)).
    { unfold Backend.convert, Backend.MAX_BATCH.
      destruct (decide _); [reflexivity|lia]. }
    split; [exact Hc|].
    intros files Hids. unfold handleStartConvert, Backend.convertFiles.
    rewrite Hids, Hc. simpl.
    destruct (decide _); reflexivity.
  - intros Hlen. unfold Backend.convert, Backend.MAX_BATCH.
    destruct (decide (10 < length fileIds)%nat); [lia|].
    destruct (decide _); [|discriminate].
    destruct (Backend.create_all new_task_id st fileIds). discriminate.
Qed.

Lemma convert_count_limit_witness :
  Backend.convert sample_task_id sample_store eleven_ids sample_settings
    = (sample_store, inl Backend.LIMIT_EXCEEDED_COUNT)
  /\ snd (Backend.convert sample_task_id sample_store ["f_0"; "f_1"]
            sample_settings)
     <> inl Backend.LIMIT_EXCEEDED_COUNT.
Proof.
  split.
  - destruct (convert_count_limit sample_task_id (fun _ => "limit")
                sample_store eleven_ids sample_settings) as [H _].
    destruct H as [H _]; [vm_compute; lia|exact H].
  - destruct (convert_count_limit sample_task_id (fun _ => "limit")
                sample_store ["f_0"; "f_1"] sample_settings) as [_ H].
    apply H. vm_compute. lia.
Defined.

Example convert_two_files :
  snd (Backend.convert sample_task_id sample_store ["f_0"; "f_1"]
         sample_settings) = inr ["t_f_0"; "t_f_1"]
  /\ snd (Backend.convert sample_task_id sample_store ["f_0"; "nope"]
            sample_settings) = inl Backend.NOT_FOUND.
Proof. split; vm_compute; reflexivity. Qed.

(** ** Further properties of the worker *)

Section WorkerRuns.
Context {FS : Type} (eng : Engine FS).

Lemma ensureFFmpeg_state (st : State FS) :
  let st' := fst (ensureFFmpeg eng st) in
  (snd (ensureFFmpeg eng st) = Ok tt <-> ffReady st' = true)
  /\ (ffReady st = true -> st' = st)
  /\ (ready_has_instance st -> ready_has_instance st').
Proof.
  unfold ready_has_instance. unfold_worker. simpl.
  destruct (ffReady st) eqn:Hr; simpl.
  { rewrite Hr. repeat split; auto. }
  destruct (importScripts eng) as [[]|e]; simpl.
  2:{ rewrite Hr. repeat split; try discriminate. }
  destruct (umd_available eng); simpl.
  2:{ rewrite Hr. repeat split; try discriminate. }
  destruct (ff_load eng) as [[]|e]; simpl.
  - repeat split; try discriminate. intros _ _. eexists; reflexivity.
  - rewrite Hr. repeat split; try discriminate.
Qed.

Lemma extends_refl (st : State FS) : extends st st.
Proof. repeat split; auto. Qed.

Lemma extends_trans (a b c : State FS) :
  extends a b -> extends b c -> extends a c.
Proof.
  intros (H1 & H2 & H3 & H4) (K1 & K2 & K3 & K4).
  repeat split; try (etransitivity; eassumption); auto.
Qed.

Lemma ensureFFmpeg_extends (st : State FS) :
  extends st (fst (ensureFFmpeg eng st)).
Proof.
  pose proof (ensureFFmpeg_logs eng st) as [Ho Hr].
  pose proof (ensureFFmpeg_state st) as (_ & Hsame & Hinst).
  repeat split.
  - rewrite Ho. reflexivity.
  - rewrite Hr. reflexivity.
  - intros H. rewrite (Hsame H). exact H.
  - exact Hinst.
Qed.

Lemma on_ff_extends {A} (op : FS -> FS * result A) (st : State FS) :
  extends st (fst (on_ff op st)).
Proof.
  unfold on_ff. destruct (ffmpeg st) as [fs|] eqn:E; [|apply extends_refl].
  destruct (op fs) as [fs' x]. unfold ready_has_instance. simpl.
  repeat split; auto. intros _ _. eexists; reflexivity.
Qed.

Lemma log_run_extends (a : list string) (st : State FS) :
  extends st (fst (log_run a st)).
Proof.
  unfold log_run, ready_has_instance. simpl.
  repeat split; auto. apply prefix_app_r. reflexivity.
Qed.

Lemma postMessage_extends (m : OutMsg) (st : State FS) :
  extends st (fst (postMessage m st)).
Proof.
  unfold postMessage, ready_has_instance. simpl.
  repeat split; auto. apply prefix_app_r. reflexivity.
Qed.

Lemma bind_extends {A B} (m : M A) (k : A -> M B) (st : State FS) :
  extends st (fst (m st)) ->
  (forall a st1, extends st1 (fst (k a st1))) ->
  extends st (fst (@mbind M M_bind A B k m st)).
Proof.
  intros Hm Hk. unfold mbind, M_bind.
  destruct (m st) as [st1 [a|e]]; simpl in *; [|exact Hm].
  eapply extends_trans; [exact Hm|apply Hk].
Qed.

Lemma runFFmpegColorKey_extends (inputU8 : bytes) (fileName : string)
    (s : Settings) (st : State FS) :
  extends st (fst (runFFmpegColorKey eng inputU8 fileName s st)).
Proof.
  unfold runFFmpegColorKey.
  apply bind_extends; [apply ensureFFmpeg_extends|]. intros _ st1.
  apply bind_extends; [apply on_ff_extends|]. intros _ st2.
  apply bind_extends; [apply log_run_extends|]. intros _ st3.
  apply bind_extends; [apply on_ff_extends|]. intros _ st4.
  apply on_ff_extends.
Qed.

Lemma handle_extends (ty : option string) (pl : option Payload)
    (st : State FS) :
  extends st (fst (handle eng ty pl st)).
Proof.
  unfold handle. destruct (decide _).
  { apply bind_extends; [apply ensureFFmpeg_extends|].
    intros _ st1. apply postMessage_extends. }
  destruct (decide _); [|apply extends_refl].
  apply bind_extends.
  { destruct pl; apply extends_refl. }
  intros p st1.
  apply bind_extends; [apply runFFmpegColorKey_extends|].
  intros out st2. apply postMessage_extends.
Qed.

Lemma onmessage_extends (data : option Data) (st : State FS) :
  extends st (fst (onmessage eng data st)).
Proof.
  unfold onmessage, try_catch.
  pose proof (handle_extends (data ≫= type) (data ≫= payload) st) as H.
  destruct (handle eng (data ≫= type) (data ≫= payload) st)
    as [st1 [[]|e]]; simpl in *; [exact H|].
  eapply extends_trans; [exact H|apply postMessage_extends].
Qed.

Lemma run_messages_extends (msgs : list (option Data)) (st : State FS) :
  extends st (run_messages eng msgs st).
Proof.
  unfold run_messages. revert st.
  induction msgs as [|data msgs IH]; intros st; [apply extends_refl|].
  simpl. eapply extends_trans; [apply onmessage_extends|apply IH].
Qed.

Lemma onmessage_reply_count (data : option Data) (st : State FS) :
  length (outbox (fst (onmessage eng data st)))
  = (length (outbox st) + (if is_request data then 1 else 0))%nat.
Proof.
  unfold is_request.
  destruct (decide (data ≫= type = Some "probe")) as [Hp|Hp];
    [|destruct (decide (data ≫= type = Some "convert")) as [Hc|Hc]].
  1,2: rewrite ?(bool_decide_eq_true_2 _ Hp), ?(bool_decide_eq_true_2 _ Hc),
         ?orb_true_r; simpl;
       unfold onmessage, try_catch;
       pose proof (handle_posts eng (data ≫= type) (data ≫= payload) st
                     ltac:(auto)) as H;
       destruct (handle eng (data ≫= type) (data ≫= payload) st)
         as [st1 [[]|e]]; simpl;
       [destruct H as (m & -> & _); rewrite length_app; reflexivity
       |unfold postMessage; simpl; rewrite length_app, H; reflexivity].
  rewrite (bool_decide_eq_false_2 _ Hp), (bool_decide_eq_false_2 _ Hc).
  simpl. unfold onmessage, try_catch, handle.
  destruct (decide _); [contradiction|]. destruct (decide _); [contradiction|].
  simpl. lia.
Qed.

End WorkerRuns.

(** X1. Over any sequence of messages the worker only appends to what it
    has posted and to the log of engine runs, a worker that is ready
    stays ready, and a ready worker always has its ffmpeg instance. *)
Theorem worker_only_extends {FS : Type} (eng : Engine FS)
    (msgs : list (option Data)) (st : State FS) :
  ready_has_instance st ->
  outbox st `prefix_of` outbox (run_messages eng msgs st)
  /\ ran st `prefix_of` ran (run_messages eng msgs st)
  /\ (ffReady st = true -> ffReady (run_messages eng msgs st) = true)
  /\ ready_has_instance (run_messages eng msgs st).
Proof.
  intros Hinv.
  destruct (run_messages_extends eng msgs st) as (H1 & H2 & H3 & H4).
  repeat split; auto.
Qed.

Lemma worker_only_extends_witness :
  ffReady (run_messages sample_engine
             [probe_message; convert_message sample_settings] init) = true
  /\ ready_has_instance
       (run_messages sample_engine
          [probe_message; convert_message sample_settings] init).
Proof.
  split; [reflexivity|].
  apply (worker_only_extends sample_engine
           [probe_message; convert_message sample_settings] init).
  intros H. discriminate H.
Defined.

(** X2. The number of messages the worker posts over a sequence of
    message events is the number of events of type [probe] or [convert]
    in it: each of these is answered once, every other event is
    ignored. *)
Theorem replies_count_requests {FS : Type} (eng : Engine FS)
    (msgs : list (option Data)) (st : State FS) :
  length (outbox (run_messages eng msgs st))
  = (length (outbox st) + length (List.filter is_request msgs))%nat.
Proof.
  unfold run_messages. revert st.
  induction msgs as [|data msgs IH]; intros st; simpl; [lia|].
  rewrite IH, onmessage_reply_count.
  destruct (is_request data); simpl; lia.
Qed.

(** X3. A ready worker never loads the engine again: on a state with
    [ffReady] set, the handler behaves the same on two engines that
    differ only in [importScripts], the UMD check, [createFFmpeg] and
    [load]. *)
Theorem ready_worker_never_reloads {FS : Type} (e1 e2 : Engine FS)
    (data : option Data) (st : State FS) :
  same_instance e1 e2 -> ffReady st = true ->
  onmessage e1 data st = onmessage e2 data st.
Proof.
  intros (Hw & Hr & Hrd & Hc) Hready.
  destruct e1, e2. simpl in Hw, Hr, Hrd, Hc. subst.
  unfold onmessage, try_catch, handle.
  destruct (decide _).
  { unfold_worker. simpl. rewrite Hready. reflexivity. }
  destruct (decide _); [|reflexivity].
  destruct (data ≫= payload); unfold_worker; simpl; [|reflexivity].
  rewrite Hready. reflexivity.
Qed.

Lemma ready_worker_never_reloads_witness :
  onmessage sample_engine (convert_message sample_settings) warm_state
  = onmessage unplugged_engine (convert_message sample_settings) warm_state
  /\ replies unplugged_engine (convert_message sample_settings) warm_state
     = [ConvertOk [Byte.x1a]]
  /\ replies unplugged_engine (convert_message sample_settings) init
     = [ErrorMsg "NetworkError"].
Proof.
  split; [|split; reflexivity].
  apply ready_worker_never_reloads; [|reflexivity].
  repeat split; reflexivity.
Defined.

(** ** Colours and tokens *)

Lemma hex2_digits (n : Z) :
  (0 <= n < 256)%Z ->
  exists c1 c2, hex2 n = String c1 (String c2 "")
    /\ JS.is_hex c1 = true /\ JS.is_hex c2 = true
    /\ JS.parseInt16 c1 c2 = n.
Proof.
  intros Hn.
  assert (H : forallb
                (fun k => match hex2 (Z.of_nat k) with
                          | String c1 (String c2 "") =>
                              JS.is_hex c1 && JS.is_hex c2
                              && (JS.parseInt16 c1 c2 =? Z.of_nat k)%Z
                          | _ => false
                          end) (seq 0 256) = true)
    by (vm_compute; reflexivity).
  rewrite forallb_forall in H.
  specialize (H (Z.to_nat n) ltac:(apply in_seq; lia)).
  rewrite Z2Nat.id in H by lia.
  destruct (hex2 n) as [|c1 [|c2 [|c3 rest]]]; try discriminate H.
  apply andb_prop in H as [[H1 H2]%andb_prop H3].
  exists c1, c2. repeat split; try assumption. apply Z.eqb_eq, H3.
Qed.

Lemma ascii_enumerate (P : ascii -> bool) :
  forallb (fun k => P (ascii_of_nat k)) (seq 0 256) = true ->
  forall c, P c = true.
Proof.
  intros H c. rewrite forallb_forall in H.
  rewrite <- (ascii_nat_embedding c). apply H, in_seq.
  pose proof (nat_ascii_bounded c). lia.
Qed.

Lemma hex2_parseInt16 (a b : ascii) :
  JS.is_hex a = true -> JS.is_hex b = true ->
  hex2 (JS.parseInt16 a b) = String (ascii_lower a) (String (ascii_lower b) "").
Proof.
  intros Ha Hb.
  assert (H : forall a b,
             (negb (JS.is_hex a) || negb (JS.is_hex b)
              || String.eqb (hex2 (JS.parseInt16 a b))
                   (String (ascii_lower a) (String (ascii_lower b) "")))
             = true).
  { intros a'. apply (ascii_enumerate
                        (fun b => negb (JS.is_hex a') || negb (JS.is_hex b)
              || String.eqb (hex2 (JS.parseInt16 a' b))
                   (String (ascii_lower a') (String (ascii_lower b) "")))).
    revert a'.
    apply (ascii_enumerate
             (fun a => forallb
                (fun k => negb (JS.is_hex a) || negb (JS.is_hex (ascii_of_nat k))
                   || String.eqb (hex2 (JS.parseInt16 a (ascii_of_nat k)))
                        (String (ascii_lower a)
                           (String (ascii_lower (ascii_of_nat k)) "")))
                (seq 0 256))).
    vm_compute. reflexivity. }
  specialize (H a b). rewrite Ha, Hb in H. simpl in H.
  apply String.eqb_eq, H.
Qed.

Lemma hex_exec_hash (ds : string) :
  strip_hash ds = ds -> hex_exec (String "#" ds) = hex_exec ds.
Proof.
  intros H. unfold hex_exec. rewrite H. reflexivity.
Qed.

(** X4. Writing a colour as a token and reading it back gives the same
    colour: for channels in 0..255 the six digits of [targetColor], with
    or without a leading [#], are read by [hexToRgbObj] as the colour they
    were made from. *)
Theorem color_round_trip (rgb : Rgb) :
  in_byte_range rgb ->
  exists ds, targetColor rgb = "0x" +:+ ds
    /\ hexToRgbObj (String "#" ds) = rgb
    /\ hexToRgbObj ds = rgb.
Proof.
  intros (Hr & Hg & Hb). destruct rgb as [r0 g0 b0]. simpl in *.
  destruct (hex2_digits r0 Hr) as (r1 & r2 & Er & Hr1 & Hr2 & Pr).
  destruct (hex2_digits g0 Hg) as (g1 & g2 & Eg & Hg1 & Hg2 & Pg).
  destruct (hex2_digits b0 Hb) as (b1 & b2 & Eb & Hb1 & Hb2 & Pb).
  exists (String r1 (String r2 (String g1 (String g2
            (String b1 (String b2 "")))))).
  assert (H6 : six_hex_digits (String r1 (String r2 (String g1 (String g2
                 (String b1 (String b2 ""))))))).
  { split; [reflexivity|]. simpl.
    rewrite Hr1, Hr2, Hg1, Hg2, Hb1, Hb2. reflexivity. }
  destruct (six_hex_digits_exec _ H6) as [Hs _].
  assert (Hex : hex_exec (String r1 (String r2 (String g1 (String g2
                   (String b1 (String b2 ""))))))
                = Some ((r1, r2), (g1, g2), (b1, b2))).
  { unfold hex_exec. rewrite Hs. simpl.
    rewrite Hr1, Hr2, Hg1, Hg2, Hb1, Hb2. reflexivity. }
  split; [|split].
  - unfold targetColor. simpl. rewrite Er, Eg, Eb. reflexivity.
  - unfold hexToRgbObj. rewrite (hex_exec_hash _ Hs), Hex, Pr, Pg, Pb.
    reflexivity.
  - unfold hexToRgbObj. rewrite Hex, Pr, Pg, Pb. reflexivity.
Qed.

Lemma color_round_trip_witness :
  targetColor {| r := 26; g := 43; b := 60 |} = "0x1a2b3c"
  /\ exists ds, targetColor {| r := 26; g := 43; b := 60 |} = "0x" +:+ ds
       /\ hexToRgbObj (String "#" ds) = {| r := 26; g := 43; b := 60 |}
       /\ hexToRgbObj ds = {| r := 26; g := 43; b := 60 |}.
Proof.
  split; [reflexivity|].
  apply (color_round_trip {| r := 26; g := 43; b := 60 |}).
  unfold in_byte_range. simpl. lia.
Defined.

(** X5. The colour of a valid literal is passed through up to letter
    case: for an optional [#] followed by six hexadecimal digits, the
    token is [0x] followed by these six digits in lower case. *)
Theorem token_is_lowercase_literal (c : string) :
  is_color_literal c ->
  targetColor (hexToRgbObj c) = "0x" +:+ toLowerCase (strip_hash c).
Proof.
  intros Hc.
  assert (H : exists ds, six_hex_digits ds /\ strip_hash c = ds
                         /\ hex_exec c = hex_exec ds).
  { destruct Hc as [H6 | (ds & -> & H6)].
    - exists c. destruct (six_hex_digits_exec c H6) as [Hs _].
      split; [exact H6|]. split; [exact Hs|reflexivity].
    - exists ds. destruct (six_hex_digits_exec ds H6) as [Hs _].
      split; [exact H6|]. split; [reflexivity|].
      apply hex_exec_hash, Hs. }
  destruct H as (ds & H6 & -> & Hex).
  destruct (six_hex_digits_exec ds H6) as [Hs _].
  apply six_hex_digits_chars in H6
    as (c1 & c2 & c3 & c4 & c5 & c6 & -> & Hall).
  unfold hexToRgbObj. rewrite Hex. unfold hex_exec. rewrite Hs, Hall.
  simpl in Hall.
  repeat (apply andb_prop in Hall as [? Hall]).
  unfold targetColor. simpl r. simpl g. simpl b.
  rewrite !hex2_parseInt16 by assumption. reflexivity.
Qed.

Lemma token_is_lowercase_literal_witness :
  targetColor (hexToRgbObj "#1A2b3C") = "0x1a2b3c"
  /\ targetColor (hexToRgbObj "FFeeDD") = "0xffeedd".
Proof.
  split.
  - apply (token_is_lowercase_literal "#1A2b3C").
    right. exists "1A2b3C". repeat split.
  - apply (token_is_lowercase_literal "FFeeDD").
    left. repeat split.
Defined.

Lemma tol_of_positive (s : Settings) (t : Q) :
  tolerance s = Some t -> (0 < t)%Q ->
  tol_of s = Qmin 1 (Qmax 0 (t / 100)).
Proof.
  intros Ht Hpos. unfold tol_of, JS.Math_min, JS.Math_max.
  rewrite Ht, or_number_positive by assumption. reflexivity.
Qed.

(** X6. For positive tolerances the similarity never decreases when the
    tolerance grows. *)
Theorem similarity_monotone (s1 s2 : Settings) (t1 t2 : Q) :
  tolerance s1 = Some t1 -> tolerance s2 = Some t2 ->
  (0 < t1)%Q -> (t1 <= t2)%Q ->
  (tol_of s1 <= tol_of s2)%Q.
Proof.
  intros H1 H2 Hpos Hle.
  assert (Hpos2 : (0 < t2)%Q) by (eapply Qlt_le_trans; eassumption).
  rewrite (tol_of_positive s1 t1 H1 Hpos), (tol_of_positive s2 t2 H2 Hpos2).
  apply Q.min_le_compat_l, Q.max_le_compat_l.
  unfold Qdiv. apply Qmult_le_compat_r; [exact Hle|discriminate].
Qed.

Lemma similarity_monotone_witness :
  (tol_of (with_tolerance 10) <= tol_of (with_tolerance 150))%Q
  /\ (tol_of (with_tolerance 10) < tol_of (with_tolerance 0))%Q.
Proof.
  split; [|reflexivity].
  apply (similarity_monotone (with_tolerance 10) (with_tolerance 150) 10 150);
    [reflexivity|reflexivity|reflexivity|discriminate].
Defined.

(** ** Further properties of the client *)

Lemma settled_inactive (f : FileProcessingState) :
  settled f -> is_active f = false.
Proof.
  unfold is_active. intros [H | [H | H]]; rewrite H; [reflexivity|..];
    apply andb_false_r.
Qed.

Lemma activeTasks_settled (files : list FileProcessingState) :
  Forall settled files -> activeTasks files = [].
Proof.
  intros H. unfold activeTasks. induction H as [|f files Hf _ IH];
    [reflexivity|].
  rewrite filter_cons_False, IH; [reflexivity|].
  rewrite (settled_inactive f Hf). discriminate.
Qed.

Lemma poll_update_no_task (rs : list TaskInfo.t) (f : FileProcessingState) :
  taskId f = None -> poll_update rs f = f.
Proof.
  intros H. unfold poll_update.
  destruct (List.find _ rs) as [r|] eqn:E; [|reflexivity].
  apply find_some in E as [_ E]. apply bool_decide_eq_true in E.
  rewrite H in E. discriminate E.
Qed.

Lemma settled_poll_noop (api : string -> result TaskInfo.t)
    (files : list FileProcessingState) :
  Forall settled files ->
  polled_ids files = [] /\ pollTaskStatus api files = files.
Proof.
  intros H. unfold polled_ids, pollTaskStatus.
  rewrite (activeTasks_settled files H). split; reflexivity.
Qed.

(** X7. While every file is settled (it has no task id, or its status
    is SUCCESS or FAILED) a poll asks the server nothing and changes
    nothing, whatever the server would answer. *)
Theorem settled_files_are_not_polled (api : string -> result TaskInfo.t)
    (files : list FileProcessingState) :
  Forall settled files ->
  polled_ids files = [] /\ pollTaskStatus api files = files.
Proof. apply settled_poll_noop. Qed.

Lemma settled_files_are_not_polled_witness :
  pollTaskStatus (api_reporting FAILED)
    (pollTaskStatus (api_reporting SUCCESS) three_running)
  = pollTaskStatus (api_reporting SUCCESS) three_running.
Proof.
  apply settled_files_are_not_polled.
  repeat (apply Forall_cons_2; [right; left; reflexivity|]).
  apply Forall_nil_2.
Defined.

(** X8. After an upload of at least one file and before any convert
    start, the polling effect runs at its fast period of 1000 ms, yet
    every poll asks the server nothing and leaves the files as they
    are. *)
Theorem uploaded_files_poll_idle (api : string -> result TaskInfo.t)
    (uploadedFiles : list FileInfo) :
  uploadedFiles <> [] ->
  poll_interval (handleFilesSelected uploadedFiles) = 1000%Z
  /\ polled_ids (handleFilesSelected uploadedFiles) = []
  /\ pollTaskStatus api (handleFilesSelected uploadedFiles)
     = handleFilesSelected uploadedFiles.
Proof.
  intros Hne. split.
  - destruct uploadedFiles as [|f rest]; [contradiction|]. reflexivity.
  - apply settled_poll_noop.
    unfold handleFilesSelected. apply Forall_fmap, Forall_true.
    intros f. left. reflexivity.
Qed.

Lemma uploaded_files_poll_idle_witness :
  poll_interval (handleFilesSelected [file_a; file_b]) = 1000%Z
  /\ polled_ids (handleFilesSelected [file_a; file_b]) = []
  /\ pollTaskStatus api_two_known (handleFilesSelected [file_a; file_b])
     = handleFilesSelected [file_a; file_b].
Proof.
  apply uploaded_files_poll_idle. discriminate.
Defined.

Lemma poll_update_file (rs : list TaskInfo.t) (f : FileProcessingState) :
  file (poll_update rs f) = file f.
Proof. unfold poll_update. destruct (List.find _ rs); reflexivity. Qed.

(** X9. Neither a poll nor a convert start changes which uploaded files
    the list holds, nor their order; a poll also keeps every task id. *)
Theorem files_keep_their_identity {Options : Type}
    (api : string -> result TaskInfo.t)
    (convertFiles : list string -> Options -> result (list string))
    (convertOptions : Options) (files : list FileProcessingState) :
  map file (pollTaskStatus api files) = map file files
  /\ map taskId (pollTaskStatus api files) = map taskId files
  /\ map file (fst (handleStartConvert convertFiles convertOptions files))
     = map file files.
Proof.
  split; [|split].
  - destruct (pollTaskStatus_cases api files) as [-> | (rs & _ & ->)];
      [reflexivity|].
    rewrite <- list_fmap_compose. apply list_fmap_ext.
    intros ? f _. apply poll_update_file.
  - destruct (pollTaskStatus_cases api files) as [-> | (rs & _ & ->)];
      [reflexivity|].
    rewrite <- list_fmap_compose. apply list_fmap_ext.
    intros ? f _. apply poll_update_taskId.
  - unfold handleStartConvert. destruct (decide _); [reflexivity|].
    destruct (convertFiles _ _) as [ids|e]; [|reflexivity].
    simpl. unfold start_update. rewrite fmap_imap.
    apply list_eq. intros i. rewrite list_lookup_imap, list_lookup_fmap.
    destruct (files !! i); reflexivity.
Qed.

(** X10. A poll never erases a result URL or an error text the client
    already holds.  After a poll the result URL of a file is the stored
    one, unless an answer of this poll that names the task of the file
    carries a non-empty URL, which then replaces it; the same holds of
    the error text and the error message of the answers.  So where the
    entry of the server has none, the stored one is kept. *)
Theorem poll_keeps_result_and_error (api : string -> result TaskInfo.t)
    (files : list FileProcessingState) (i : nat)
    (f f' : FileProcessingState) :
  files !! i = Some f -> pollTaskStatus api files !! i = Some f' ->
  (resultUrl f' = resultUrl f
   \/ exists t r, t ∈ polled_ids files /\ api t = Ok r
        /\ Some (TaskInfo.taskId r) = taskId f
        /\ JS.truthy_string (TaskInfo.resultUrl r) = true
        /\ resultUrl f' = TaskInfo.resultUrl r)
  /\ (error f' = error f
      \/ exists t r, t ∈ polled_ids files /\ api t = Ok r
           /\ Some (TaskInfo.taskId r) = taskId f
           /\ JS.truthy_string (TaskInfo.errorMessage r) = true
           /\ error f' = TaskInfo.errorMessage r).
Proof.
  intros Hf Hf'.
  destruct (pollTaskStatus_cases api files) as [E | (rs & Hrs & E)];
    rewrite E in Hf'.
  { assert (f' = f) as -> by congruence. split; left; reflexivity. }
  rewrite list_lookup_fmap, Hf in Hf'. injection Hf' as <-.
  unfold poll_update.
  destruct (List.find _ rs) as [r|] eqn:Efind; [|split; left; reflexivity].
  apply find_some in Efind as [Hin Hid].
  apply bool_decide_eq_true in Hid.
  assert (Hfrom : exists t, t ∈ polled_ids files /\ api t = Ok r).
  { apply Promise_all_Ok in Hrs.
    apply list_elem_of_In, list_elem_of_lookup in Hin as [j Hj].
    destruct (Forall2_lookup_r _ _ _ _ _ Hrs Hj) as (q & Hq & Hqr).
    rewrite list_lookup_fmap in Hq.
    destruct (polled_ids files !! j) as [t|] eqn:Ht; [|discriminate].
    injection Hq as <-. exists t.
    split; [eapply list_elem_of_lookup_2, Ht|exact Hqr]. }
  destruct Hfrom as (t & Ht & Hr).
  simpl. unfold or_else. split.
  - destruct (JS.truthy_string (TaskInfo.resultUrl r)) eqn:Eu;
      [|left; reflexivity].
    right. exists t, r. repeat split; assumption.
  - destruct (JS.truthy_string (TaskInfo.errorMessage r)) eqn:Ee;
      [|left; reflexivity].
    right. exists t, r. repeat split; assumption.
Qed.

Lemma poll_keeps_result_and_error_witness :
  resultUrl (nth_file 0 url_files) = Some "https://cdn/out.webm"
  /\ TaskInfo.resultUrl (report "t_501" RUNNING) = None
  /\ resultUrl (nth_file 0 (pollTaskStatus (api_reporting RUNNING)
                               url_files))
     = Some "https://cdn/out.webm".
Proof.
  split; [reflexivity|]. split; [reflexivity|].
  destruct (poll_keeps_result_and_error (api_reporting RUNNING) url_files 0
              (nth_file 0 url_files)
              (nth_file 0 (pollTaskStatus (api_reporting RUNNING) url_files))
              eq_refl eq_refl) as [[H | (t & r & _ & Hr & _ & Hu & _)] _].
  - exact H.
  - injection Hr as <-. discriminate Hu.
Defined.

Section Surplus.
Context (api : string -> result TaskInfo.t).

Lemma pollTaskStatus_no_task (files : list FileProcessingState) (i : nat)
    (f : FileProcessingState) :
  files !! i = Some f -> taskId f = None ->
  pollTaskStatus api files !! i = Some f.
Proof.
  intros Hf Hid.
  destruct (pollTaskStatus_cases api files) as [-> | (rs & _ & ->)];
    [exact Hf|].
  rewrite list_lookup_fmap, Hf. simpl.
  rewrite (poll_update_no_task rs f Hid). reflexivity.
Qed.

End Surplus.

Lemma canStartConvert_running (converting : bool)
    (files : list FileProcessingState) (f : FileProcessingState) :
  f ∈ files -> status f = RUNNING -> canStartConvert converting files = false.
Proof.
  intros Hin Hst. unfold canStartConvert.
  assert (H : existsb (fun f => bool_decide (status f = RUNNING)) files = true).
  { apply existsb_exists. exists f. split; [apply list_elem_of_In, Hin|].
    apply bool_decide_eq_true, Hst. }
  rewrite H. apply andb_false_r.
Qed.

(** X11. When the server names fewer tasks than there are files, each
    surplus file is set to RUNNING with no task id, no poll ever changes
    it, and as long as it is in the list the convert button stays
    disabled. *)
Theorem surplus_files_stay_running (uploadedFiles : list FileInfo)
    (taskIds : list string) (apis : list (string -> result TaskInfo.t))
    (i : nat) (converting : bool) :
  (length taskIds <= i)%nat -> (i < length uploadedFiles)%nat ->
  Forall (fun files =>
            (exists f, files !! i = Some f /\ status f = RUNNING
                       /\ taskId f = None)
            /\ canStartConvert converting files = false)
         (start_update taskIds (handleFilesSelected uploadedFiles)
          :: poll_states apis
               (start_update taskIds (handleFilesSelected uploadedFiles))).
Proof.
  intros Hge Hlt.
  set (s := start_update taskIds (handleFilesSelected uploadedFiles)).
  assert (Hs : exists f, s !! i = Some f /\ status f = RUNNING
                         /\ taskId f = None).
  { assert (Hi : (i < length s)%nat).
    { unfold s, start_update, handleFilesSelected.
      rewrite length_imap, length_map. exact Hlt. }
    apply lookup_lt_is_Some in Hi as [f Hf]. exists f.
    destruct (start_update_lookup _ _ _ _ Hf) as (H1 & H2 & _).
    repeat split; try assumption.
    rewrite H2. apply lookup_ge_None, Hge. }
  assert (Hstep : forall files,
            (exists f, files !! i = Some f /\ status f = RUNNING
                       /\ taskId f = None) ->
            canStartConvert converting files = false).
  { intros files (f & Hf & Hst & _).
    apply (canStartConvert_running converting files f);
      [eapply list_elem_of_lookup_2, Hf|exact Hst]. }
  clearbody s. revert s Hs.
  induction apis as [|api apis IH]; intros s Hs.
  - apply Forall_cons_2; [|apply Forall_nil_2]. split; [exact Hs|auto].
  - apply Forall_cons_2; [split; [exact Hs|auto]|].
    simpl poll_states. apply IH.
    destruct Hs as (f & Hf & Hst & Hid). exists f.
    split; [apply pollTaskStatus_no_task; assumption|]. split; assumption.
Qed.

Lemma surplus_files_stay_running_witness :
  map status (pollTaskStatus (api_reporting SUCCESS) one_of_three_started)
    = [SUCCESS; RUNNING; RUNNING]
  /\ canStartConvert false
       (pollTaskStatus (api_reporting SUCCESS) one_of_three_started) = false.
Proof.
  split; [reflexivity|].
  pose proof (surplus_files_stay_running [file_a; file_b; file_c] ["t_501"]
                [api_reporting SUCCESS] 1 false
                ltac:(simpl; lia) ltac:(simpl; lia)) as H.
  apply Forall_cons in H as [_ H]. apply Forall_cons in H as [[_ H] _].
  exact H.
Defined.

(** X12. Once a convert request has been accepted the convert button is
    disabled: [canStartConvert] is false on the files
    [handleStartConvert] leaves. *)
Theorem started_files_cannot_be_started {Options : Type}
    (convertFiles : list string -> Options -> result (list string))
    (convertOptions : Options) (files : list FileProcessingState)
    (taskIds : list string) (converting : bool) :
  convertFiles (map (fun f => fileId (file f)) files) convertOptions
    = Ok taskIds ->
  canStartConvert converting
    (fst (handleStartConvert convertFiles convertOptions files)) = false.
Proof.
  intros Hok. unfold handleStartConvert.
  destruct (decide _) as [Hz|Hnz].
  - rewrite length_map in Hz. apply nil_length_inv in Hz. subst. reflexivity.
  - rewrite Hok. simpl.
    destruct files as [|f files]; [contradiction Hnz; reflexivity|].
    unfold canStartConvert. simpl. rewrite andb_false_r. reflexivity.
Qed.

Lemma started_files_cannot_be_started_witness :
  canStartConvert false
    (fst (handleStartConvert (fun _ (_ : unit) => Ok ["t_501"; "t_502"]) tt
            (handleFilesSelected [file_a; file_b]))) = false
  /\ canStartConvert false (handleFilesSelected [file_a; file_b]) = true.
Proof.
  split; [|reflexivity].
  apply (started_files_cannot_be_started _ tt _ ["t_501"; "t_502"]).
  reflexivity.
Defined.

(** X13. [handleRemoveFile] keeps exactly the files with another file
    id, in their order, and it commutes with the update of a poll: the
    entries of a poll applied after a removal give the same files as the
    removal applied after them. *)
Theorem remove_commutes_with_poll_update (fid : string)
    (rs : list TaskInfo.t) (files : list FileProcessingState) :
  (forall f, f ∈ handleRemoveFile fid files
             <-> f ∈ files /\ fileId (file f) <> fid)
  /\ handleRemoveFile fid files `sublist_of` files
  /\ handleRemoveFile fid (map (poll_update rs) files)
     = map (poll_update rs) (handleRemoveFile fid files).
Proof.
  split; [|split].
  - intros f. unfold handleRemoveFile. rewrite list_elem_of_filter. tauto.
  - apply sublist_filter.
  - unfold handleRemoveFile. induction files as [|f files IH]; [reflexivity|].
    simpl map. rewrite !filter_cons, poll_update_file.
    destruct (decide _); simpl; rewrite IH; reflexivity.
Qed.

(** X14. [handleBatchDownload] asks only for tasks of files in SUCCESS
    that have a task id, and it never sends an empty request: without
    such a file it only shows a warning, whatever the server is. *)
Theorem batch_download_asks_for_successes
    (batchDownload : list string -> result bytes)
    (files : list FileProcessingState) :
  (forall t, t ∈ successfulTasks files ->
     t <> "" /\ exists f, f ∈ files /\ status f = SUCCESS
                          /\ taskId f = Some t)
  /\ (successfulTasks files = [] ->
       handleBatchDownload batchDownload files
         = (None, Warning "没有可下载的文件"))
  /\ (successfulTasks files <> [] ->
       handleBatchDownload batchDownload files
         = match batchDownload (successfulTasks files) with
           | Ok blob =>
               (Some (blob, "transparent_videos.zip"), Success "下载完成")
           | Err _ => (None, Error "批量下载失败")
           end).
Proof.
  split; [|split].
  - intros t Ht. unfold successfulTasks in Ht.
    apply list_elem_of_fmap in Ht as (f & -> & Hf).
    apply list_elem_of_filter in Hf as [Hc Hin].
    apply andb_prop in Hc as [Hs Htr]. apply bool_decide_eq_true in Hs.
    destruct (taskId f) as [t|] eqn:E; [|discriminate Htr]. simpl.
    split.
    + intros ->. discriminate Htr.
    + exists f. repeat split; assumption.
  - intros H. unfold handleBatchDownload. rewrite H. reflexivity.
  - intros H. unfold handleBatchDownload.
    destruct (decide _) as [Hz|]; [|reflexivity].
    apply nil_length_inv in Hz. contradiction.
Qed.

Lemma batch_download_asks_for_successes_witness :
  successfulTasks
    (pollTaskStatus (api_reporting SUCCESS) one_of_three_started) = ["t_501"]
  /\ handleBatchDownload archive_of
       (pollTaskStatus (api_reporting SUCCESS) one_of_three_started)
     = (Some ([Byte.x50], "transparent_videos.zip"), Success "下载完成")
  /\ handleBatchDownload archive_of three_running
     = (None, Warning "没有可下载的文件").
Proof.
  split; [reflexivity|].
  destruct (batch_download_asks_for_successes archive_of
              (pollTaskStatus (api_reporting SUCCESS) one_of_three_started))
    as (_ & _ & H1).
  destruct (batch_download_asks_for_successes archive_of three_running)
    as (_ & H2 & _).
  split; [rewrite H1; [reflexivity|discriminate]|].
  apply H2. reflexivity.
Defined.

Lemma remove_commutes_with_poll_update_witness :
  map (fun f => fileId (file f))
      (handleRemoveFile "f_124" (pollTaskStatus api_with_url three_running))
  = ["f_123"; "f_125"]
  /\ handleRemoveFile "f_124"
       (map (poll_update [report "t_501" SUCCESS]) three_running)
     = map (poll_update [report "t_501" SUCCESS])
           (handleRemoveFile "f_124" three_running).
Proof.
  split; [reflexivity|].
  apply (remove_commutes_with_poll_update "f_124" [report "t_501" SUCCESS]
           three_running).
Defined.

(** ** Requests that fail *)

(** X15. A convert request that axios rejects leaves the files as they
    are and shows an error text that is never empty: the message of the
    server when it sent a non-empty one, and a fixed text otherwise. *)
Theorem rejected_convert_shows_a_message {Options : Type}
    (post : list string -> Options -> Api.Axios (list string))
    (convertOptions : Options) (files : list FileProcessingState)
    (e : option Api.ApiError) :
  files <> [] ->
  post (map (fun f => fileId (file f)) files) convertOptions
    = Api.Rejected e ->
  exists text,
    handleStartConvert (Api.convertFiles post) convertOptions files
      = (files, Error text)
    /\ text <> ""
    /\ text = match e with
              | Some ae => if String.eqb (Api.message ae) ""
                           then "启动转换失败" else Api.message ae
              | None => "启动转换失败，请重试"
              end.
Proof.
  intros Hne Hpost. unfold handleStartConvert, Api.convertFiles.
  destruct (decide _) as [Hz|_].
  { rewrite length_map in Hz. apply nil_length_inv in Hz. contradiction. }
  rewrite Hpost. destruct e as [ae|]; simpl.
  - eexists. split; [reflexivity|]. split; [|reflexivity].
    destruct (String.eqb (Api.message ae) "") eqn:E; [discriminate|].
    apply String.eqb_neq, E.
  - eexists. split; [reflexivity|]. split; [discriminate|reflexivity].
Qed.

Lemma rejected_convert_shows_a_message_witness :
  handleStartConvert
    (Api.convertFiles
       (rejecting_post (Some {| Api.code := "LIMIT_EXCEEDED_COUNT";
                                Api.message := "" |})))
    sample_settings three_running
  = (three_running, Error "启动转换失败").
Proof.
  destruct (rejected_convert_shows_a_message
              (rejecting_post (Some {| Api.code := "LIMIT_EXCEEDED_COUNT";
                                       Api.message := "" |}))
              sample_settings three_running
              (Some {| Api.code := "LIMIT_EXCEEDED_COUNT";
                       Api.message := "" |}))
    as (text & H & _ & ->); [discriminate|reflexivity|exact H].
Defined.

(** X16. [beforeUpload] always returns [false], and it shows no message
    exactly when the file has one of the three video types, is at most
    [maxSizeMB] MiB large and fits under [maxFiles] together with the
    files already listed. *)
Theorem beforeUpload_accepts_iff (f : Utils.File)
    (fileListLength filesLength maxFiles maxSizeMB : nat) :
  let res := beforeUpload (Utils.name f) (Utils.validateFileType f)
               (Utils.validateFileSize f (inject_Z (Z.of_nat maxSizeMB)))
               fileListLength filesLength maxFiles maxSizeMB in
  fst res = false
  /\ (snd res = None <->
      Utils.type f ∈ ["video/mp4"; "video/quicktime"; "video/webm"]
      /\ (Utils.size f <= inject_Z (Z.of_nat maxSizeMB * 1048576))%Q
      /\ (fileListLength + filesLength <= maxFiles)%nat).
Proof.
  simpl. split; [apply beforeUpload_returns_false|].
  unfold beforeUpload, Utils.validateFileType, Utils.validateFileSize.
  assert (Hsz : Qle_bool (Utils.size f)
                  (inject_Z (Z.of_nat maxSizeMB) * 1024 * 1024) = true
                <-> (Utils.size f
                     <= inject_Z (Z.of_nat maxSizeMB * 1048576))%Q).
  { rewrite Qle_bool_iff.
    assert (E : (inject_Z (Z.of_nat maxSizeMB) * 1024 * 1024
                 == inject_Z (Z.of_nat maxSizeMB * 1048576))%Q).
    { rewrite inject_Z_mult. change (inject_Z 1048576) with (1048576%Q).
      ring. }
    rewrite E. reflexivity. }
  destruct (bool_decide _) eqn:Ht; simpl.
  - apply bool_decide_eq_true in Ht.
    destruct (Qle_bool _ _) eqn:Hs; simpl.
    + destruct (decide _) as [Hc|Hc]; simpl.
      * split; [discriminate|]. intros (_ & _ & H). lia.
      * split; [|reflexivity]. intros _.
        split; [exact Ht|]. split; [apply Hsz; reflexivity|lia].
    + split; [discriminate|]. intros (_ & H & _).
      apply Hsz in H. discriminate H.
  - apply bool_decide_eq_false in Ht.
    split; [discriminate|]. intros (H & _). contradiction.
Qed.

Lemma beforeUpload_accepts_iff_witness :
  snd (beforeUpload "clip.mp4" (Utils.validateFileType clip_mp4)
         (Utils.validateFileSize clip_mp4 50) 9 1 10 50) = None
  /\ snd (beforeUpload "clip.mp4" (Utils.validateFileType clip_mp4)
            (Utils.validateFileSize clip_mp4 50) 9 2 10 50)
     = Some (Error "最多只能上传 10 个文件").
Proof.
  split; [|reflexivity].
  apply (beforeUpload_accepts_iff clip_mp4 9 1 10 50).
  split; [|split].
  - apply list_elem_of_here.
  - vm_compute. discriminate.
  - simpl. lia.
Defined.

(** ** The file card *)

Lemma tick_mod (n : Z) :
  (0 <= n)%Z ->
  FileCard.tick (2 * (n mod 11)) = (2 * ((n + 1) mod 11))%Z.
Proof.
  intros Hn. unfold FileCard.tick.
  pose proof (Z.mod_pos_bound n 11 ltac:(lia)) as Hb.
  pose proof (Z.div_mod n 11 ltac:(lia)) as Hd.
  destruct (20 <? 2 * (n mod 11) + 2)%Z eqn:E.
  - apply Z.ltb_lt in E.
    assert (Hm : (n mod 11 = 10)%Z) by lia.
    symmetry. replace (n + 1)%Z with ((n / 11 + 1) * 11)%Z by lia.
    rewrite Z.mod_mul by lia. reflexivity.
  - apply Z.ltb_ge in E.
    assert (Hm : ((n + 1) mod 11 = n mod 11 + 1)%Z).
    { symmetry. apply (Z.mod_unique _ _ (n / 11)); lia. }
    rewrite Hm. lia.
Qed.

(** X17. The bar of a pending card cycles through 0, 2, ..., 20: after
    [n] ticks from 0 it stands at [2 * (n mod 11)], so it never leaves
    the range 0..20. *)
Theorem pending_bar_cycles (n : nat) :
  Nat.iter n FileCard.tick 0%Z = (2 * (Z.of_nat n mod 11))%Z
  /\ (0 <= Nat.iter n FileCard.tick 0%Z <= 20)%Z.
Proof.
  assert (H : Nat.iter n FileCard.tick 0%Z = (2 * (Z.of_nat n mod 11))%Z).
  { induction n as [|n IH]; [reflexivity|].
    simpl Nat.iter. rewrite IH, tick_mod by lia.
    f_equal. f_equal. lia. }
  split; [exact H|]. rewrite H.
  pose proof (Z.mod_pos_bound (Z.of_nat n) 11 ltac:(lia)). lia.
Qed.

(** ** Splitting names at dots *)

Ltac string_head :=
  match goal with
  | |- String ?c _ = String ?c ?w +:+ ?r =>
      change (String c w +:+ r) with (String c (w +:+ r)); f_equal
  end.

Lemma split_on_hd (sep : ascii) (s : string) :
  exists rest, s = List.hd "" (split_on sep s) +:+ rest
    /\ all_chars (not_char sep) (List.hd "" (split_on sep s)) = true
    /\ (rest = "" \/ exists r, rest = String sep r)
    /\ (all_chars (not_char sep) s = true -> rest = "").
Proof.
  induction s as [|c s (rest & Hs & Hno & Hrest & Hall)]; simpl.
  - exists "". repeat split. left. reflexivity.
  - destruct (Ascii.eqb c sep) eqn:E; simpl.
    + exists (String c s). split; [reflexivity|]. split; [reflexivity|].
      split.
      * right. exists s. apply Ascii.eqb_eq in E. rewrite E. reflexivity.
      * intros [Hc _]%andb_prop. unfold not_char in Hc. rewrite E in Hc.
        discriminate Hc.
    + pose proof (split_on_not_nil sep s) as Hnn.
      destruct (split_on sep s) as [|w ws]; [contradiction|]. simpl in *.
      exists rest. split; [string_head; exact Hs|]. split; [|split].
      * unfold not_char at 1. rewrite E. exact Hno.
      * exact Hrest.
      * intros [_ H]%andb_prop. exact (Hall H).
Qed.

Lemma split_on_single (sep : ascii) (s w : string) :
  split_on sep s = [w] -> all_chars (not_char sep) s = true /\ w = s.
Proof.
  revert w. induction s as [|c s IH]; intros w H; simpl in H.
  - injection H as <-. split; reflexivity.
  - destruct (Ascii.eqb c sep) eqn:E.
    + injection H as _ H. contradiction (split_on_not_nil sep s).
    + pose proof (split_on_not_nil sep s) as Hnn.
      destruct (split_on sep s) as [|v vs]; [contradiction|].
      injection H as <- ->. destruct (IH v eq_refl) as [Hs ->].
      split; [|reflexivity]. simpl. unfold not_char at 1.
      rewrite E. exact Hs.
Qed.

Lemma split_on_last (sep : ascii) (s : string) :
  exists pre, s = pre +:+ List.last (split_on sep s) ""
    /\ all_chars (not_char sep) (List.last (split_on sep s) "") = true
    /\ (pre = "" \/ exists p, pre = p +:+ String sep "")
    /\ (all_chars (not_char sep) s = true -> pre = "").
Proof.
  induction s as [|c s (pre & Hs & Hno & Hpre & Hall)].
  - exists "". repeat split; auto.
  - simpl split_on. pose proof (split_on_not_nil sep s) as Hnn.
    destruct (Ascii.eqb c sep) eqn:E.
    + apply Ascii.eqb_eq in E. subst c.
      exists (String sep pre).
      replace (List.last ("" :: split_on sep s) "")
        with (List.last (split_on sep s) "")
        by (destruct (split_on sep s); [contradiction|reflexivity]).
      split; [string_head; exact Hs|]. split; [exact Hno|]. split.
      * right. destruct Hpre as [-> | (p & ->)].
        -- exists "". reflexivity.
        -- exists (String sep p). reflexivity.
      * intros [Hc _]%andb_prop. unfold not_char in Hc.
        rewrite Ascii.eqb_refl in Hc. discriminate Hc.
    + destruct (split_on sep s) as [|w ws] eqn:Ews; [contradiction|].
      destruct ws as [|w' ws'].
      * destruct (split_on_single sep s w Ews) as [Hclean ->].
        exists "". simpl. split; [reflexivity|]. split.
        { unfold not_char at 1. rewrite E. exact Hclean. }
        split; [left; reflexivity|reflexivity].
      * change (List.last (String c w :: w' :: ws') "")
          with (List.last (w :: w' :: ws') "").
        assert (Hdirty : all_chars (not_char sep) s = false).
        { destruct (all_chars (not_char sep) s) eqn:Hc; [|reflexivity].
          rewrite (split_on_none sep s Hc) in Ews. discriminate Ews. }
        exists (String c pre).
        split; [string_head; exact Hs|]. split; [exact Hno|]. split.
        { right. destruct Hpre as [-> | (p & ->)].
          - assert (Hs' : s = List.last (w :: w' :: ws') "") by exact Hs.
            rewrite Hs', Hno in Hdirty. discriminate Hdirty.
          - exists (String c p). reflexivity. }
        intros [_ Hc]%andb_prop.
        change (all_chars (not_char sep) s = true) in Hc.
        rewrite Hc in Hdirty. discriminate Hdirty.
Qed.

Lemma toLowerCase_keeps (sep : ascii) (s : string) :
  (nat_of_ascii sep < 65 \/ 122 < nat_of_ascii sep)%nat ->
  all_chars (not_char sep) s = true ->
  all_chars (not_char sep) (toLowerCase s) = true.
Proof.
  intros Hsep. induction s as [|c s IH]; simpl; [reflexivity|].
  intros [Hc Hs]%andb_prop. rewrite (IH Hs), andb_true_r.
  unfold not_char in *. apply negb_true_iff. apply negb_true_iff in Hc.
  apply Ascii.eqb_neq. apply Ascii.eqb_neq in Hc.
  unfold ascii_lower.
  destruct ((65 <=? nat_of_ascii c)%nat && (nat_of_ascii c <=? 90)%nat) eqn:E;
    [|exact Hc].
  apply andb_prop in E as [E1 E2].
  apply Nat.leb_le in E1, E2. intros <-.
  rewrite nat_ascii_embedding in Hsep by lia. lia.
Qed.

(** X18. A result is downloaded only for a file in SUCCESS with a
    non-empty file id, it is fetched by that file id, and it is saved as
    the part of the file's name before its first dot followed by
    [_transparent.webm]: the name is that part, which holds no dot,
    followed by nothing or by a text that starts with a dot. *)
Theorem download_only_after_success
    (downloadFile : string -> result Worker.bytes)
    (f : FileProcessingState) (blob : Worker.bytes) (saved : string) :
  FileCard.handleDownload downloadFile f = Some (blob, saved) ->
  status f = SUCCESS /\ fileId (file f) <> ""
  /\ downloadFile (fileId (file f)) = Ok blob
  /\ exists base rest,
       saved = base +:+ "_transparent.webm"
       /\ name (file f) = base +:+ rest
       /\ all_chars (not_char ".") base = true
       /\ (rest = "" \/ exists r, rest = "." +:+ r)
       /\ (all_chars (not_char ".") (name (file f)) = true -> rest = "").
Proof.
  unfold FileCard.handleDownload. intros H.
  destruct (String.eqb (fileId (file f)) "") eqn:Eid; [discriminate H|].
  destruct (bool_decide (status f = SUCCESS)) eqn:Est; [|discriminate H].
  simpl in H.
  destruct (downloadFile (fileId (file f))) as [b|e] eqn:Ed; [|discriminate H].
  injection H as -> <-.
  apply String.eqb_neq in Eid. apply bool_decide_eq_true in Est.
  repeat split; try assumption.
  destruct (split_on_hd "." (name (file f))) as (rest & H1 & H2 & H3 & H4).
  exists (List.hd "" (split_on "." (name (file f)))), rest.
  split; [reflexivity|]. split; [exact H1|]. split; [exact H2|].
  split; [exact H3|exact H4].
Qed.

Lemma download_only_after_success_witness :
  FileCard.handleDownload (fun _ => Ok [Byte.x1a])
    (nth_file 0 (pollTaskStatus (api_reporting SUCCESS) three_running))
  = Some ([Byte.x1a], "a_transparent.webm")
  /\ FileCard.handleDownload (fun _ => Ok [Byte.x1a]) (nth_file 0 three_running)
     = None
  /\ FileCard.download_name "Clip.Final.MP4" = "Clip_transparent.webm"
  /\ status (nth_file 0 (pollTaskStatus (api_reporting SUCCESS) three_running))
     = SUCCESS.
Proof.
  split; [reflexivity|]. split; [reflexivity|]. split; [reflexivity|].
  apply (download_only_after_success (fun _ => Ok [Byte.x1a])
           (nth_file 0 (pollTaskStatus (api_reporting SUCCESS) three_running))
           [Byte.x1a] "a_transparent.webm").
  reflexivity.
Defined.

(** X19. The extension [getFileExtension] returns contains no dot and is
    the lower-case form of the part of the name after its last dot; a
    name without any dot is returned whole, in lower case. *)
Theorem file_extension_is_last_part (filename : string) :
  all_chars (not_char ".") (Utils.getFileExtension filename) = true
  /\ (exists pre last,
        filename = pre +:+ last
        /\ Utils.getFileExtension filename = toLowerCase last
        /\ all_chars (not_char ".") last = true
        /\ (pre = "" \/ exists p, pre = p +:+ "."))
  /\ (all_chars (not_char ".") filename = true ->
      Utils.getFileExtension filename = toLowerCase filename).
Proof.
  unfold Utils.getFileExtension.
  destruct (split_on_last "." filename) as (pre & Hs & Hno & Hpre & Hall).
  split; [|split].
  - apply toLowerCase_keeps; [|exact Hno].
    left. change (46 < 65)%nat. lia.
  - exists pre, (List.last (split_on "." filename) "").
    repeat split; assumption.
  - intros H. rewrite (Hall H) in Hs.
    assert (Hs' : filename = List.last (split_on "." filename) "") by exact Hs.
    rewrite <- Hs'. reflexivity.
Qed.

Lemma file_extension_is_last_part_witness :
  Utils.getFileExtension "Clip.Final.MP4" = "mp4"
  /\ Utils.getFileExtension "README" = "readme"
  /\ Utils.getFileExtension "archive." = "".
Proof.
  split; [reflexivity|]. split; [|reflexivity].
  destruct (file_extension_is_last_part "README") as (_ & _ & H).
  apply H. reflexivity.
Defined.

(** ** The options panel *)

(** X20. The tolerance slider cannot show 0: when the stored tolerance
    is 0 the slider shows the default 10, although 0 is what the options
    hold; every other stored value is shown as it is. *)
Theorem zero_tolerance_is_shown_as_default (options : Settings) (value : Q) :
  ((value == 0)%Q ->
     OptionsPanel.shown_tolerance (OptionsPanel.change_tolerance value options)
       = 10%Q
     /\ tolerance (OptionsPanel.change_tolerance value options) = Some value)
  /\ (~ (value == 0)%Q ->
       OptionsPanel.shown_tolerance
         (OptionsPanel.change_tolerance value options) = value)
  /\ ~ (OptionsPanel.shown_tolerance
          (OptionsPanel.change_tolerance value options) == 0)%Q.
Proof.
  unfold OptionsPanel.shown_tolerance. simpl.
  split; [|split].
  - intros Hz. split; [apply or_number_zero, Hz|reflexivity].
  - intros Hnz. destruct (Qeq_bool value 0) eqn:E; [|reflexivity].
    apply Qeq_bool_eq in E. contradiction.
  - destruct (Qeq_bool value 0) eqn:E; [discriminate|].
    apply Qeq_bool_neq, E.
Qed.

Lemma zero_tolerance_is_shown_as_default_witness :
  OptionsPanel.shown_tolerance
    (OptionsPanel.change_tolerance 0 sample_settings) = 10%Q
  /\ OptionsPanel.shown_tolerance
       (OptionsPanel.change_tolerance 35 sample_settings) = 35%Q.
Proof.
  destruct (zero_tolerance_is_shown_as_default sample_settings 0)
    as ([H _] & _); [reflexivity|].
  destruct (zero_tolerance_is_shown_as_default sample_settings 35)
    as (_ & H' & _).
  split; [exact H|apply H'; discriminate].
Defined.

(** ** Durations *)

Lemma Qfloor_unique (z : Z) (x : Q) :
  (inject_Z z <= x)%Q -> (x < inject_Z (z + 1))%Q -> Qfloor x = z.
Proof.
  intros Hlo Hhi.
  pose proof (Qfloor_le x) as H1. pose proof (Qlt_floor x) as H2.
  assert (A : (Qfloor x < z + 1)%Z).
  { rewrite Zlt_Qlt. eapply Qle_lt_trans; eassumption. }
  assert (B : (z < Qfloor x + 1)%Z).
  { rewrite Zlt_Qlt. eapply Qle_lt_trans; eassumption. }
  lia.
Qed.

Lemma Number_toString_int (z : Z) :
  (0 <= z)%Z -> JS.Number_toString (inject_Z z) = JS.int_toString 10 z.
Proof.
  intros Hz. unfold JS.Number_toString, inject_Z. simpl Qnum. simpl Qden.
  rewrite Z.abs_eq, Z.div_1_r, Z.mod_1_r by exact Hz. simpl.
  destruct (z <? 0)%Z eqn:E; [apply Z.ltb_lt in E; lia|reflexivity].
Qed.

Lemma floor_div_60 (s : Q) :
  (0 <= s)%Q ->
  Qfloor (s / 60) = (Qfloor s / 60)%Z
  /\ Qfloor (Utils.rem s 60) = (Qfloor s mod 60)%Z.
Proof.
  intros Hs.
  pose proof (Qfloor_le s) as H1. pose proof (Qlt_floor s) as H2.
  set (t := Qfloor s) in *.
  pose proof (Z.div_mod t 60 ltac:(lia)) as Hd.
  pose proof (Z.mod_pos_bound t 60 ltac:(lia)) as Hb.
  set (q := (t / 60)%Z) in *. set (m := (t mod 60)%Z) in *.
  assert (Ht : (inject_Z t == 60 * inject_Z q + inject_Z m)%Q).
  { rewrite Hd, inject_Z_plus, inject_Z_mult. reflexivity. }
  assert (Hm0 : (0 <= inject_Z m)%Q)
    by (change 0%Q with (inject_Z 0); rewrite <- Zle_Qle; lia).
  assert (Hm1 : (inject_Z m + 1 <= 60)%Q).
  { change 1%Q with (inject_Z 1). change 60%Q with (inject_Z 60).
    rewrite <- inject_Z_plus, <- Zle_Qle. lia. }
  assert (Ht1 : (inject_Z (t + 1) == inject_Z t + 1)%Q)
    by (rewrite inject_Z_plus; reflexivity).
  assert (Hq1 : (inject_Z (q + 1) == inject_Z q + 1)%Q)
    by (rewrite inject_Z_plus; reflexivity).
  assert (Hm2 : (inject_Z (m + 1) == inject_Z m + 1)%Q)
    by (rewrite inject_Z_plus; reflexivity).
  assert (Hdiv : (s / 60 == s * (1 # 60))%Q) by reflexivity.
  assert (Hfloor : Qfloor (s / 60) = q).
  { apply Qfloor_unique; rewrite Hdiv; [|rewrite Hq1]; lra. }
  split; [exact Hfloor|].
  unfold Utils.rem, Utils.Math_trunc.
  assert (Hpos : Qle_bool 0 (s / 60) = true).
  { apply Qle_bool_iff. rewrite Hdiv. lra. }
  rewrite Hpos, Hfloor.
  apply Qfloor_unique; [|rewrite Hm2]; lra.
Qed.

Lemma two_digit_seconds (m : Z) :
  (0 <= m < 60)%Z ->
  String.length (JS.padStart2 (JS.int_toString 10 m)) = 2%nat.
Proof.
  intros Hm.
  assert (H : forallb
                (fun k => Nat.eqb (String.length
                            (JS.padStart2 (JS.int_toString 10 (Z.of_nat k)))) 2)
                (seq 0 60) = true) by (vm_compute; reflexivity).
  rewrite forallb_forall in H.
  specialize (H (Z.to_nat m) ltac:(apply in_seq; lia)).
  rewrite Z2Nat.id in H by lia. apply Nat.eqb_eq, H.
Qed.

(** X21. For a duration of [seconds >= 0], [formatDuration] prints the
    whole minutes, a colon and the remaining whole seconds on exactly two
    digits: with [t] the whole seconds, these are [t / 60] and
    [t mod 60]. *)
Theorem formatDuration_minutes_seconds (seconds : Q) :
  (0 <= seconds)%Q ->
  Utils.formatDuration seconds
    = JS.int_toString 10 (Qfloor seconds / 60) +:+ ":"
      +:+ JS.padStart2 (JS.int_toString 10 (Qfloor seconds mod 60))
  /\ String.length
       (JS.padStart2 (JS.int_toString 10 (Qfloor seconds mod 60))) = 2%nat.
Proof.
  intros Hs. split.
  2:{ apply two_digit_seconds, Z.mod_pos_bound. lia. }
  unfold Utils.formatDuration.
  destruct (Qeq_bool seconds 0) eqn:E.
  - apply Qeq_bool_eq in E. rewrite (Qfloor_comp _ _ E). reflexivity.
  - destruct (floor_div_60 seconds Hs) as [Hq Hr].
    unfold Utils.Math_floor. rewrite Hq, Hr.
    assert (Ht : (0 <= Qfloor seconds)%Z).
    { change 0%Z with (Qfloor 0). apply Qfloor_resp_le, Hs. }
    rewrite !Number_toString_int; [reflexivity| |].
    + apply Z.mod_pos_bound. lia.
    + apply Z.div_pos; lia.
Qed.

Lemma formatDuration_minutes_seconds_witness :
  Utils.formatDuration (98 # 10) = "0:09"
  /\ Utils.formatDuration 125 = "2:05"
  /\ Utils.formatDuration (36005 # 10) = "60:00".
Proof.
  split; [|split; reflexivity].
  destruct (formatDuration_minutes_seconds (98 # 10)) as [H _];
    [discriminate|].
  rewrite H. reflexivity.
Defined.

(** ** The performance monitor *)

Lemma recordMetric_same (name : string) (value : Q)
    (metrics : gmap string (list Q)) :
  default [] (Perf.recordMetric name value metrics !! name)
  = let values := default [] (metrics !! name) ++ [value] in
    if decide (100 < length values)%nat then tail values else values.
Proof. unfold Perf.recordMetric. rewrite lookup_insert_eq. reflexivity. Qed.

Lemma recordMetric_other (name other : string) (value : Q)
    (metrics : gmap string (list Q)) :
  name <> other ->
  Perf.recordMetric name value metrics !! other = metrics !! other.
Proof. intros H. unfold Perf.recordMetric. apply lookup_insert_ne, H. Qed.

Lemma window_step (l : list Q) (v : Q) :
  let values := drop (length l - 100) l ++ [v] in
  (if decide (100 < length values)%nat then tail values else values)
  = drop (length (l ++ [v]) - 100) (l ++ [v]).
Proof.
  simpl. rewrite !length_app, length_drop. simpl.
  destruct (decide _) as [H|H].
  - assert (Hl : (100 <= length l)%nat) by lia.
    replace (length l + 1 - 100)%nat with (length l - 100 + 1)%nat by lia.
    rewrite drop_app_le by lia.
    rewrite <- drop_drop.
    destruct (drop (length l - 100) l) as [|x k] eqn:E.
    + apply (f_equal length) in E. rewrite length_drop in E. simpl in E. lia.
    + reflexivity.
  - replace (length l - 100)%nat with 0%nat by lia.
    replace (length l + 1 - 100)%nat with 0%nat by lia.
    reflexivity.
Qed.

(** X22. A new monitor keeps, for every metric, the last 100 values
    recorded under its name, in the order they were recorded, and never
    more than 100. *)
Theorem monitor_keeps_last_hundred (events : list (string * Q))
    (name : string) :
  default [] (Perf.record_all events !! name)
    = drop (length (Perf.recorded name events) - 100)
           (Perf.recorded name events)
  /\ (length (default [] (Perf.record_all events !! name)) <= 100)%nat.
Proof.
  assert (H : default [] (Perf.record_all events !! name)
              = drop (length (Perf.recorded name events) - 100)
                     (Perf.recorded name events)).
  { induction events as [|[n v] events IH] using rev_ind; [reflexivity|].
    unfold Perf.record_all, Perf.recorded in *.
    rewrite foldl_app, filter_app, fmap_app. simpl foldl.
    destruct (decide (n = name)) as [->|Hne].
    - rewrite recordMetric_same, IH.
      rewrite filter_cons_True by reflexivity. simpl filter. simpl fmap.
      apply window_step.
    - rewrite recordMetric_other by exact Hne.
      rewrite filter_cons_False by exact Hne. simpl.
      rewrite app_nil_r. exact IH. }
  split; [exact H|]. rewrite H, length_drop. lia.
Qed.

Lemma sum_bounds (lo hi : Q) (values : list Q) (acc : Q) :
  Forall (fun v => (lo <= v)%Q /\ (v <= hi)%Q) values ->
  (acc + inject_Z (Z.of_nat (length values)) * lo <= foldl Qplus acc values)%Q
  /\ (foldl Qplus acc values
      <= acc + inject_Z (Z.of_nat (length values)) * hi)%Q.
Proof.
  intros H. revert acc. induction H as [|v values [Hlo Hhi] _ IH]; intros acc.
  - cbn [foldl length]. change (inject_Z (Z.of_nat 0)) with 0%Q. split; lra.
  - simpl foldl. destruct (IH (acc + v)%Q) as [I1 I2].
    assert (E : (inject_Z (Z.of_nat (length (v :: values)))
                 == inject_Z (Z.of_nat (length values)) + 1)%Q).
    { simpl length. rewrite Nat2Z.inj_succ, <- Z.add_1_r, inject_Z_plus.
      reflexivity. }
    rewrite E. split; nra.
Qed.



Lemma sorted_upto {A} (R : relation A) (l : list A) (i : nat) (v : A) :
  (forall x, R x x) -> StronglySorted R l -> l !! i = Some v ->
  Forall (fun x => R x v) (take (S i) l).
Proof.
  intros Hrefl Hs. revert i.
  induction Hs as [|a l Hs IH Ha]; intros i Hi; [discriminate Hi|].
  destruct i as [|j]; simpl in Hi.
  - injection Hi as <-. simpl. rewrite take_0.
    apply Forall_cons_2; [apply Hrefl|apply Forall_nil_2].
  - change (take (S (S j)) (a :: l)) with (a :: take (S j) l).
    apply Forall_cons_2; [|apply IH, Hi].
    rewrite Forall_forall in Ha. apply Ha.
    eapply list_elem_of_lookup_2, Hi.
Qed.

Lemma filter_all {A} (P : A -> Prop) `{!forall x, Decision (P x)}
    (l : list A) :
  Forall P l -> filter P l = l.
Proof.
  induction 1 as [|x l Hx _ IH]; [reflexivity|].
  rewrite filter_cons_True by exact Hx. rewrite IH. reflexivity.
Qed.

Lemma count_prefix {A} (P : A -> Prop) `{!forall x, Decision (P x)}
    (l : list A) (k : nat) :
  (k <= length l)%nat -> Forall P (take k l) ->
  (k <= length (filter P l))%nat.
Proof.
  intros Hk Hall. rewrite <- (take_drop k l) at 1.
  rewrite filter_app, length_app, (filter_all P _ Hall), length_take. lia.
Qed.

Lemma Qle_total (x y : Q) : (x <= y)%Q \/ (y <= x)%Q.
Proof.
  destruct (Qlt_le_dec x y) as [H|H]; [left; apply Qlt_le_weak, H|right; exact H].
Qed.



(** X25. Clearing a metric by a non-empty name removes that metric only:
    its average and percentile read 0 afterwards and every other metric
    keeps its values.  Clearing with the empty name or with no name
    removes all metrics. *)
Theorem clearMetrics_scope (name : option string)
    (metrics : gmap string (list Q)) :
  (JS.truthy_string name = true ->
     forall n, name = Some n ->
       Perf.getAverage n (Perf.clearMetrics name metrics) = 0%Q
       /\ (forall p, Perf.getPercentile n p (Perf.clearMetrics name metrics)
                     = Some 0%Q)
       /\ (forall other, other <> n ->
             Perf.clearMetrics name metrics !! other = metrics !! other))
  /\ (JS.truthy_string name = false ->
       Perf.clearMetrics name metrics = ∅).
Proof.
  unfold Perf.clearMetrics. split.
  - intros Ht n ->. rewrite Ht. simpl.
    unfold Perf.getAverage, Perf.getPercentile.
    rewrite lookup_delete_eq. simpl. split; [reflexivity|].
    split; [reflexivity|]. intros other Hne. apply lookup_delete_ne. congruence.
  - intros ->. reflexivity.
Qed.

Lemma clearMetrics_scope_witness :
  Perf.getAverage "convert" (Perf.clearMetrics (Some "convert") sample_metrics)
    = 0%Q
  /\ Perf.clearMetrics (Some "convert") sample_metrics !! "upload"
     = Some [5%Q]
  /\ Perf.clearMetrics (Some "") sample_metrics = ∅.
Proof.
  destruct (clearMetrics_scope (Some "convert") sample_metrics) as [H _].
  destruct (H eq_refl "convert" eq_refl) as (H1 & _ & H3).
  destruct (clearMetrics_scope (Some "") sample_metrics) as [_ H'].
  split; [exact H1|]. split; [|apply H'; reflexivity].
  rewrite H3 by discriminate. reflexivity.
Defined.

(** ** The visible window of a list *)



(** ** Batches *)

Lemma batches_from_spec {A} (items : list A) (batchSize : nat) :
  (0 < batchSize)%nat ->
  forall (fuel i : nat),
    (length items - i < fuel)%nat ->
    exists bs, Perf.batches_from fuel items i batchSize = Some bs
      /\ concat bs = drop i items
      /\ Forall (fun b => (0 < length b <= batchSize)%nat) bs
      /\ (length items <= i + length bs * batchSize)%nat
      /\ (i + length bs * batchSize
          < Nat.max (length items) i + batchSize)%nat.
Proof.
  intros Hb. induction fuel as [|fuel IH]; intros i Hf; [lia|].
  simpl. destruct (decide (i < length items)%nat) as [Hi|Hi].
  - destruct (IH (i + batchSize)%nat ltac:(lia))
      as (bs & -> & Hc & Hall & H1 & H2).
    simpl. eexists. split; [reflexivity|]. split; [|split; [|split]].
    + simpl. rewrite Hc, <- drop_drop. apply take_drop.
    + apply Forall_cons_2; [|exact Hall].
      rewrite length_take, length_drop. lia.
    + simpl length. simpl Nat.mul. lia.
    + simpl length. simpl Nat.mul.
      destruct (length bs) as [|n]; simpl in *; lia.
  - exists []. split; [reflexivity|]. split.
    + simpl. symmetry. apply drop_ge. lia.
    + split; [apply Forall_nil_2|]. simpl. lia.
Qed.



(** X28. With a batch size of 0 and at least one item the loop of
    [batchOperations] never ends: it has not finished after any number
    of rounds. *)
Theorem zero_batch_size_never_ends {A} (items : list A)
    (operation : list A -> result unit) (fuel : nat) :
  items <> [] ->
  Perf.batches_from fuel items 0 0 = None
  /\ Perf.batchOperations fuel items operation 0 = None.
Proof.
  intros Hne.
  assert (H : Perf.batches_from fuel items 0 0 = None).
  { induction fuel as [|fuel IH]; [reflexivity|].
    simpl. destruct (decide _) as [_|Hn].
    - rewrite IH. reflexivity.
    - destruct items; [contradiction|]. simpl in Hn. lia. }
  split; [exact H|]. unfold Perf.batchOperations. rewrite H. reflexivity.
Qed.

Lemma zero_batch_size_never_ends_witness :
  Perf.batches_from 1000 ["a"] 0 0 = None.
Proof.
  apply (zero_batch_size_never_ends ["a"] (fun _ => Ok tt) 1000).
  discriminate.
Defined.

(** ** The isolation service worker *)

Lemma withIsolationHeaders_headers (r r' : COI.Response) :
  COI.withIsolationHeaders r = Ok r' ->
  COI.status r' = COI.status r /\ COI.statusText r' = COI.statusText r
  /\ COI.body r' = COI.body r
  /\ COI.headers r' =
       <[COI.CORP := default "same-origin" (COI.headers r !! COI.CORP)]>
         (<[COI.COEP := "require-corp"]>
            (<[COI.COOP := "same-origin"]> (COI.headers r))).
Proof.
  unfold COI.withIsolationHeaders, COI.new_Response.
  destruct ((COI.status r <? 200)%Z || (599 <? COI.status r)%Z);
    [discriminate|].
  destruct (bool_decide _ && COI.null_body_status _); [discriminate|].
  intros [= <-]. simpl. repeat split.
  unfold COI.Headers_has, COI.Headers_set.
  change (toLowerCase "Cross-Origin-Resource-Policy") with COI.CORP.
  change (toLowerCase "Cross-Origin-Embedder-Policy") with COI.COEP.
  change (toLowerCase "Cross-Origin-Opener-Policy") with COI.COOP.
  rewrite !lookup_insert_ne by discriminate.
  case_bool_decide as Hd; simpl.
  - destruct Hd as [v E]. rewrite E. simpl.
    symmetry. apply insert_id. rewrite !lookup_insert_ne by discriminate.
    exact E.
  - destruct (COI.headers r !! COI.CORP) as [v|] eqn:E; [|reflexivity].
    contradiction Hd. eexists; reflexivity.
Qed.

(** X29. When [withIsolationHeaders] returns a response, that response
    has the status, status text and body of the original, carries
    [Cross-Origin-Opener-Policy: same-origin] and
    [Cross-Origin-Embedder-Policy: require-corp], keeps a
    [Cross-Origin-Resource-Policy] header that was there and has
    [same-origin] otherwise, keeps every other header, and is left
    unchanged when the function is applied to it again. *)
Theorem isolation_headers_are_set (r r' : COI.Response) :
  COI.withIsolationHeaders r = Ok r' ->
  COI.status r' = COI.status r /\ COI.statusText r' = COI.statusText r
  /\ COI.body r' = COI.body r
  /\ COI.headers r' !! COI.COOP = Some "same-origin"
  /\ COI.headers r' !! COI.COEP = Some "require-corp"
  /\ COI.headers r' !! COI.CORP
     = Some (default "same-origin" (COI.headers r !! COI.CORP))
  /\ (forall name, name <> COI.COOP -> name <> COI.COEP ->
        name <> COI.CORP ->
        COI.headers r' !! name = COI.headers r !! name)
  /\ COI.withIsolationHeaders r' = Ok r'.
Proof.
  intros H.
  destruct (withIsolationHeaders_headers r r' H) as (Hs & Ht & Hb & Hh).
  assert (H1 : COI.headers r' !! COI.COOP = Some "same-origin").
  { rewrite Hh, !lookup_insert_ne by discriminate. apply lookup_insert_eq. }
  assert (H2 : COI.headers r' !! COI.COEP = Some "require-corp").
  { rewrite Hh, lookup_insert_ne by discriminate. apply lookup_insert_eq. }
  assert (H3 : COI.headers r' !! COI.CORP
               = Some (default "same-origin" (COI.headers r !! COI.CORP))).
  { rewrite Hh. apply lookup_insert_eq. }
  repeat (split; [assumption|]). split.
  - intros name N1 N2 N3. rewrite Hh.
    rewrite !lookup_insert_ne by congruence. reflexivity.
  - destruct (COI.withIsolationHeaders r') as [r''|e] eqn:E.
    + destruct (withIsolationHeaders_headers r' r'' E)
        as (Hs' & Ht' & Hb' & Hh').
      f_equal. destruct r', r''. simpl in *. subst.
      f_equal. rewrite H3. simpl.
      rewrite (insert_id _ COI.COOP) by exact H1.
      rewrite (insert_id _ COI.COEP) by exact H2.
      apply insert_id. exact H3.
    + exfalso. revert H E.
      unfold COI.withIsolationHeaders, COI.new_Response.
      rewrite Hs, Hb.
      destruct ((COI.status r <? 200)%Z || (599 <? COI.status r)%Z);
        [discriminate|].
      destruct (bool_decide _ && COI.null_body_status _); discriminate.
Qed.

Lemma isolation_headers_are_set_witness :
  COI.withIsolationHeaders page_response = Ok isolated_page
  /\ COI.headers isolated_page !! COI.CORP = Some "cross-origin"
  /\ COI.withIsolationHeaders isolated_page = Ok isolated_page
  /\ is_ok (COI.withIsolationHeaders redirect_response) = false.
Proof.
  assert (E : COI.withIsolationHeaders page_response = Ok isolated_page)
    by (vm_compute; reflexivity).
  destruct (isolation_headers_are_set page_response isolated_page E)
    as (_ & _ & _ & _ & _ & H & _ & Hid).
  split; [exact E|]. split; [exact H|]. split; [exact Hid|reflexivity].
Defined.

Lemma isolation_headers_are_set_aux (r r' : COI.Response) :
  COI.withIsolationHeaders r = Ok r' ->
  COI.headers r' !! COI.COOP = Some "same-origin"
  /\ COI.headers r' !! COI.COEP = Some "require-corp"
  /\ is_Some (COI.headers r' !! COI.CORP).
Proof.
  intros H.
  destruct (withIsolationHeaders_headers r r' H) as (_ & _ & _ & Hh).
  rewrite Hh. split; [|split].
  - rewrite !lookup_insert_ne by discriminate. apply lookup_insert_eq.
  - rewrite lookup_insert_ne by discriminate. apply lookup_insert_eq.
  - rewrite lookup_insert_eq. eexists; reflexivity.
Qed.

(** X30. A navigation to the worker's own origin is always answered,
    and the document is fetched past the HTTP cache.  When the fetch
    gives a response that [withIsolationHeaders] can rebuild, the answer
    is that rebuilt response, which carries the isolation headers and
    the status and body that were fetched; when the fetch fails or the
    response cannot be rebuilt, the answer is the Offline page of status
    200, which carries none of the isolation headers; and the Offline
    page is the answer in these two cases only.  A request to another
    origin is not answered by the worker; a same-origin subresource is
    fetched through the cache and answered with the rebuilt response,
    and a failure of its fetch or of the rebuilding is passed on. *)
Theorem navigations_are_always_answered (self_origin : string)
    (fetch : COI.Request -> bool -> result COI.Response)
    (req : COI.Request) :
  (COI.origin req <> self_origin ->
     COI.on_fetch self_origin fetch req = None)
  /\ (COI.origin req = self_origin -> COI.mode req = "navigate" ->
      (exists r, COI.on_fetch self_origin fetch req = Some (Ok r)
         /\ (COI.isolated r \/ r = COI.offline))
      /\ (forall r r', fetch req true = Ok r ->
            COI.withIsolationHeaders r = Ok r' ->
            COI.on_fetch self_origin fetch req = Some (Ok r')
            /\ COI.isolated r' /\ COI.status r' = COI.status r
            /\ COI.body r' = COI.body r)
      /\ (COI.on_fetch self_origin fetch req = Some (Ok COI.offline)
          <-> is_ok (fetch req true) = false
              \/ exists r, fetch req true = Ok r
                   /\ is_ok (COI.withIsolationHeaders r) = false))
  /\ (COI.origin req = self_origin -> COI.mode req <> "navigate" ->
      (forall e, fetch req false = Err e ->
         COI.on_fetch self_origin fetch req = Some (Err e))
      /\ (forall r, fetch req false = Ok r ->
            COI.on_fetch self_origin fetch req
            = Some (COI.withIsolationHeaders r)))
  /\ ~ COI.isolated COI.offline.
Proof.
  assert (Hoff : ~ COI.isolated COI.offline).
  { intros (H & _). discriminate H. }
  unfold COI.on_fetch. split; [|split; [|split]]; [| | |exact Hoff].
  - intros H. apply String.eqb_neq in H. rewrite H. reflexivity.
  - intros -> Hm. rewrite String.eqb_refl, Hm. simpl.
    destruct (fetch req true) as [r|e] eqn:Ef.
    + destruct (COI.withIsolationHeaders r) as [r'|e] eqn:E.
      * destruct (isolation_headers_are_set_aux r r' E) as (H1 & H2 & H3).
        destruct (withIsolationHeaders_headers r r' E) as (Hs & _ & Hb & _).
        assert (Hiso : COI.isolated r') by (repeat split; assumption).
        split; [exists r'; split; [reflexivity|left; exact Hiso]|].
        split.
        -- intros r0 r0' [= <-] E0. rewrite E in E0. injection E0 as <-.
           repeat split; assumption.
        -- split.
           ++ intros [= ->]. contradiction (Hoff Hiso).
           ++ intros [H | (r0 & [= <-] & H)]; [discriminate H|].
              rewrite E in H. discriminate H.
      * split; [exists COI.offline; split; [reflexivity|right; reflexivity]|].
        split.
        -- intros r0 r0' [= <-] E0. rewrite E in E0. discriminate E0.
        -- split; [|reflexivity]. intros _. right. exists r.
           split; [reflexivity|]. rewrite E. reflexivity.
    + split; [exists COI.offline; split; [reflexivity|right; reflexivity]|].
      split; [intros r0 r0' H; discriminate H|].
      split; [|reflexivity]. intros _. left. reflexivity.
  - intros -> Hm. rewrite String.eqb_refl. simpl.
    apply String.eqb_neq in Hm. rewrite Hm. split.
    + intros e He. rewrite He. reflexivity.
    + intros r Hr. rewrite Hr. reflexivity.
Qed.

Lemma navigations_are_always_answered_witness :
  COI.on_fetch "https://app.example" failing_fetch navigation
    = Some (Ok COI.offline)
  /\ COI.on_fetch "https://app.example" (fun _ _ => Ok redirect_response)
       navigation = Some (Ok COI.offline)
  /\ COI.on_fetch "https://app.example" (fun _ _ => Ok page_response)
       navigation = Some (Ok isolated_page)
  /\ COI.on_fetch "https://cdn.example" failing_fetch navigation = None.
Proof.
  destruct (navigations_are_always_answered "https://cdn.example"
              failing_fetch navigation) as (H & _).
  destruct (navigations_are_always_answered "https://app.example"
              (fun _ _ => Ok page_response) navigation)
    as (_ & Hnav & _).
  destruct (Hnav eq_refl eq_refl) as (_ & Hok & _).
  destruct (Hok page_response isolated_page eq_refl
              ltac:(vm_compute; reflexivity)) as (Hpage & _).
  split; [reflexivity|]. split; [reflexivity|].
  split; [exact Hpage|]. apply H. discriminate.
Defined.
